(** * glucose-exporter: the LibreLink client and the metric collector

    A shallow embedding of [api/librelink] (client, payload types, date
    parsing) and of [collector/metrics.go], with the properties of the
    specification stated over it. *)

From Stdlib Require Import ZArith List String Ascii Bool Lia.
From Stdlib Require Import DecimalString.
From Stdlib Require SpecFloat.
Import ListNotations.
Open Scope string_scope.
Open Scope Z_scope.

(** ** Go values *)

(** A Go [error] is its message. *)
Definition error := string.

(** What a Go call does: it returns a value with a nil error, it returns a
    non-nil error, or it panics (a nil pointer dereference here). *)
Inductive outcome (A : Type) : Type :=
| Ok (a : A)
| Err (e : error)
| Panic (p : string).
Arguments Ok {A} a.
Arguments Err {A} e.
Arguments Panic {A} p.

Definition bind {A B} (m : outcome A) (k : A -> outcome B) : outcome B :=
  match m with
  | Ok a => k a
  | Err e => Err e
  | Panic p => Panic p
  end.

Notation "' p <- m ;; k" := (bind m (fun p => k))
  (at level 61, p pattern, m at next level, right associativity).
Notation "x <- m ;; k" := (bind m (fun x => k))
  (at level 61, m at next level, right associativity).

Definition nilDeref : string :=
  "runtime error: invalid memory address or nil pointer dereference".

(** [fmt.Sprintf("%d", n)]. *)
Definition itoa (n : Z) : string := NilZero.string_of_int (Z.to_int n).

(** ** Package time, as far as the client uses it *)
Module time.

(** An instant: seconds since the Unix epoch (UTC) and nanoseconds. *)
Record Time : Type := mkTime { unixSec : Z; nanos : Z }.

(** [time.Unix(sec, nsec)] for [0 <= nsec < 1e9]. *)
Definition Unix (sec nsec : Z) : Time := mkTime sec nsec.

Definition isLeap (year : Z) : bool :=
  (year mod 4 =? 0) && (negb (year mod 100 =? 0) || (year mod 400 =? 0)).

Definition daysIn (m year : Z) : Z :=
  if m =? 2 then (if isLeap year then 29 else 28)
  else if (m =? 4) || (m =? 6) || (m =? 9) || (m =? 11) then 30
  else 31.

(** Days from the first of January to the first of month [m]. *)
Definition daysBefore (m year : Z) : Z :=
  nth (Z.to_nat (m - 1)) [0; 31; 59; 90; 120; 151; 181; 212; 243; 273; 304; 334] 0
  + (if (2 <? m) && isLeap year then 1 else 0).

(** Days from 1970-01-01 to the given day of the proleptic Gregorian
    calendar. *)
Definition daysSinceEpoch (year month day : Z) : Z :=
  let y := year - 1 in
  365 * y + y / 4 - y / 100 + y / 400 + daysBefore month year + (day - 1) - 719162.

(** [time.Date(year, month, day, hour, min, sec, nsec, time.UTC)] for fields
    that are in range, which is all that [Parse] hands to it. *)
Definition Date (year month day hour min sec nsec : Z) : Time :=
  mkTime (daysSinceEpoch year month day * 86400 + hour * 3600 + min * 60 + sec) nsec.

(** The zero [time.Time{}]: January 1, year 1, 00:00:00 UTC. *)
Definition zero : Time := Date 1 1 1 0 0 0 0.

(** *** Reading numbers (format.go) *)

Definition isDigitChar (c : ascii) : bool :=
  (48 <=? Z.of_nat (nat_of_ascii c)) && (Z.of_nat (nat_of_ascii c) <=? 57).

Definition digitVal (c : ascii) : Z := Z.of_nat (nat_of_ascii c) - 48.

(** [isDigit(s, i)]: is there a decimal digit at index [i]? *)
Definition isDigit (s : string) (i : nat) : bool :=
  match String.get i s with
  | Some c => isDigitChar c
  | None => false
  end.

(** [s[n:]] (for [n <= len(s)]). *)
Fixpoint drop (n : nat) (s : string) : string :=
  match n, s with
  | S n', String _ s' => drop n' s'
  | _, _ => s
  end.

(** [s[:n]]. *)
Fixpoint take (n : nat) (s : string) : string :=
  match n, s with
  | S n', String c s' => String c (take n' s')
  | _, _ => EmptyString
  end.

(** [int(s[i] - '0')]. *)
Definition digitAt (s : string) (i : nat) : Z :=
  match String.get i s with
  | Some c => digitVal c
  | None => 0
  end.

Definition errBad : error := "bad value for field".
Definition errAtoi : error := "time: invalid number".
Definition errLeadingInt : error := "time: bad [0-9]*".

(** [getnum]: one or two digits; exactly two when [fixed]. *)
Definition getnum (s : string) (fixed : bool) : outcome (Z * string) :=
  if negb (isDigit s 0) then Err errBad
  else if negb (isDigit s 1) then
    (if fixed then Err errBad else Ok (digitAt s 0, drop 1 s))
  else Ok (digitAt s 0 * 10 + digitAt s 1, drop 2 s).

(** [leadingInt]: the leading run of digits, as an unsigned 64-bit number. *)
Fixpoint leadingInt (s : string) (x : Z) : outcome (Z * string) :=
  match s with
  | EmptyString => Ok (x, s)
  | String c s' =>
    if negb (isDigitChar c) then Ok (x, s)
    else if 2 ^ 63 / 10 <? x then Err errLeadingInt
    else
      let x' := x * 10 + digitVal c in
      if 2 ^ 63 <? x' then Err errLeadingInt else leadingInt s' x'
  end.

(** [atoi]: an optional sign and digits up to the end of the string. *)
Definition atoi (s : string) : outcome Z :=
  let '(neg, s1) :=
    match s with
    | String c r =>
      if Ascii.eqb c "-" then (true, r)
      else if Ascii.eqb c "+" then (false, r)
      else (false, s)
    | EmptyString => (false, s)
    end in
  match leadingInt s1 0 with
  | Ok (q, EmptyString) => Ok (if neg then - q else q)
  | _ => Err errAtoi
  end.

Fixpoint cutspace (s : string) : string :=
  match s with
  | String c s' => if Ascii.eqb c " " then cutspace s' else s
  | EmptyString => s
  end.

(** [skip(value, prefix)]: the literal text of the layout must be next in
    the value; a space of the layout stands for any run of spaces.  The
    loop of the source runs at most once per byte of [prefix], which is
    the bound [n]. *)
Fixpoint skipLoop (n : nat) (value prefix : string) : outcome string :=
  match prefix with
  | EmptyString => Ok value
  | String p prefix' =>
    match n with
    | O => Err errBad
    | S n' =>
      if Ascii.eqb p " " then
        match value with
        | String v _ =>
          if negb (Ascii.eqb v " ") then Err errBad
          else skipLoop n' (cutspace value) (cutspace prefix)
        | EmptyString => skipLoop n' (cutspace value) (cutspace prefix)
        end
      else
        match value with
        | String v value' =>
          if Ascii.eqb v p then skipLoop n' value' prefix' else Err errBad
        | EmptyString => Err errBad
        end
    end
  end.

Definition skip (value prefix : string) : outcome string :=
  skipLoop (String.length prefix) value prefix.

Definition commaOrPeriod (c : ascii) : bool :=
  Ascii.eqb c "." || Ascii.eqb c ",".

(** The index after the run of digits that starts at index [n] of [value]
    (the loop [for ; n < len(value) && isDigit(value, n); n++]). *)
Fixpoint digitRun (value : string) (n : nat) (fuel : nat) : nat :=
  match fuel with
  | O => n
  | S fuel' => if isDigit value n then digitRun value (S n) fuel' else n
  end.

(** [parseNanoseconds(value, nbytes)]: [value[0]] is the separator and
    [value[1:nbytes]] the digits; digits after the ninth are dropped. *)
Definition parseNanoseconds (value : string) (nbytes : nat) : outcome Z :=
  match value with
  | EmptyString => Panic "index out of range"     (* value[0] *)
  | String c _ =>
    if negb (commaOrPeriod c) then Err errBad
    else
      let nbytes' := Nat.min nbytes 10 in
      let value' := take nbytes' value in
      ns <- atoi (drop 1 value') ;;
      if ns <? 0 then Err "fractional second out of range"
      else Ok (ns * 10 ^ Z.of_nat (10 - nbytes'))
  end.

(** *** Parse *)

(** The layout elements that occur in the client's layout. *)
Inductive std : Type :=
| stdNumMonth      (* "1" *)
| stdDay           (* "2" *)
| stdLongYear      (* "2006" *)
| stdHour12        (* "3" *)
| stdZeroMinute    (* "04" *)
| stdZeroSecond    (* "05" *)
| stdPM.           (* "PM" *)

(** A layout as [nextStdChunk] cuts it: literal text followed by an element,
    over and over, and the literal text after the last element. *)
Record layout : Type := mkLayout { chunks : list (string * std); trailer : string }.

(** The fields [Parse] collects while it walks the layout. *)
Record fields : Type := mkFields {
  year : Z; month : Z; day : Z; hour : Z; min : Z; sec : Z; nsec : Z;
  pmSet : bool; amSet : bool }.

Definition noFields : fields := mkFields 0 (-1) (-1) 0 0 0 0 false false.

Definition rangeErr (what : string) : error := what ++ " out of range".

(** One turn of the loop of [Parse] after the literal prefix was skipped:
    the case of the [switch] for the element.  No layout built from [std]
    has a fractional second, so a fractional second found in the input
    after the seconds is always the one the layout does not announce. *)
Definition parseStd (s : std) (value : string) (f : fields)
  : outcome (string * fields) :=
  match s with
  | stdNumMonth =>
    '(m, value) <- getnum value false ;;
    if (m <=? 0) || (12 <? m) then Err (rangeErr "month")
    else Ok (value, mkFields (year f) m (day f) (hour f) (min f) (sec f) (nsec f) (pmSet f) (amSet f))
  | stdDay =>
    '(d, value) <- getnum value false ;;
    Ok (value, mkFields (year f) (month f) d (hour f) (min f) (sec f) (nsec f) (pmSet f) (amSet f))
  | stdLongYear =>
    if (String.length value <? 4)%nat || negb (isDigit value 0) then Err errBad
    else
      y <- atoi (take 4 value) ;;
      Ok (drop 4 value, mkFields y (month f) (day f) (hour f) (min f) (sec f) (nsec f) (pmSet f) (amSet f))
  | stdHour12 =>
    '(h, value) <- getnum value false ;;
    if (h <? 0) || (12 <? h) then Err (rangeErr "hour")
    else Ok (value, mkFields (year f) (month f) (day f) h (min f) (sec f) (nsec f) (pmSet f) (amSet f))
  | stdZeroMinute =>
    '(mi, value) <- getnum value true ;;
    if (mi <? 0) || (60 <=? mi) then Err (rangeErr "minute")
    else Ok (value, mkFields (year f) (month f) (day f) (hour f) mi (sec f) (nsec f) (pmSet f) (amSet f))
  | stdZeroSecond =>
    '(se, value) <- getnum value true ;;
    if (se <? 0) || (60 <=? se) then Err (rangeErr "second")
    else
      let f1 := mkFields (year f) (month f) (day f) (hour f) (min f) se (nsec f) (pmSet f) (amSet f) in
      (* a fractional second in the input that the layout does not have *)
      if (2 <=? String.length value)%nat && commaOrPeriod (match String.get 0 value with Some c => c | None => " "%char end)
         && isDigit value 1
      then
        let n := digitRun value 2 (String.length value) in
        ns <- parseNanoseconds value n ;;
        Ok (drop n value, mkFields (year f) (month f) (day f) (hour f) (min f) se ns (pmSet f) (amSet f))
      else Ok (value, f1)
  | stdPM =>
    if (String.length value <? 2)%nat then Err errBad
    else
      let p := take 2 value in
      let value := drop 2 value in
      if String.eqb p "PM" then
        Ok (value, mkFields (year f) (month f) (day f) (hour f) (min f) (sec f) (nsec f) true (amSet f))
      else if String.eqb p "AM" then
        Ok (value, mkFields (year f) (month f) (day f) (hour f) (min f) (sec f) (nsec f) (pmSet f) true)
      else Err errBad
  end.

(** The loop of [Parse] over the layout. *)
Fixpoint parseLoop (cs : list (string * std)) (trail : string) (value : string) (f : fields)
  : outcome fields :=
  match cs with
  | [] =>
    value <- skip value trail ;;
    if (String.length value =? 0)%nat then Ok f else Err "extra text"
  | (prefix, s) :: cs' =>
    value <- skip value prefix ;;
    '(value, f) <- parseStd s value f ;;
    parseLoop cs' trail value f
  end.

(** [time.Parse(layout, value)]: no zone in the layout, so the result is in
    UTC. *)
Definition Parse (l : layout) (value : string) : outcome Time :=
  f <- parseLoop (chunks l) (trailer l) value noFields ;;
  let hour :=
    if pmSet f && (hour f <? 12) then hour f + 12
    else if amSet f && (hour f =? 12) then 0
    else hour f in
  if (day f <? 1) || (daysIn (month f) (year f) <? day f) then Err "day out of range"
  else Ok (Date (year f) (month f) (day f) hour (min f) (sec f) (nsec f)).

(** [t.IsZero()]: the zero instant. *)
Definition IsZero (t : Time) : bool :=
  (unixSec t =? unixSec zero) && (nanos t =? 0).

(** [t.Before(u)]. *)
Definition Before (t u : Time) : bool :=
  (unixSec t <? unixSec u) || ((unixSec t =? unixSec u) && (nanos t <? nanos u)).

End time.

(** ** Package librelink: payload types (types.go) *)

(** [const DateFormat = "1/2/2006 3:04:05 PM"], cut into its elements:
    month, "/", day, "/", four-digit year, " ", hour of the 12-hour clock,
    ":", two-digit minute, ":", two-digit second, " ", AM or PM. *)
Definition DateFormat : time.layout :=
  time.mkLayout
    [("", time.stdNumMonth); ("/", time.stdDay); ("/", time.stdLongYear);
     (" ", time.stdHour12); (":", time.stdZeroMinute); (":", time.stdZeroSecond);
     (" ", time.stdPM)]
    "".

Definition parseDate (s : string) : outcome time.Time :=
  time.Parse DateFormat s.


(** ** Package encoding/json

    The decoder of the Go library is not part of the repository.  A JSON
    text is modelled by what [json.Unmarshal] reads from it at the Go type
    the caller decodes it into, before the repository's own
    [UnmarshalJSON] methods run on its parts. *)
Module json.

(** [json.Unmarshal(data, &p)] for a pointer [p] to a struct of type [A]:
    the struct is filled from a JSON object, or [p] is set to nil by the
    JSON text [null], or an error is returned. *)
Inductive decoded (A : Type) : Type :=
| Filled (a : A)
| Null
| Invalid (e : error).
Arguments Filled {A} a.
Arguments Null {A}.
Arguments Invalid {A} e.

Definition errEnd : error := "unexpected end of JSON input".

End json.

(** 64-bit two's complement wrap-around of Go's [int64] arithmetic. *)
Definition wrap64 (z : Z) : Z := (z + 2 ^ 63) mod 2 ^ 64 - 2 ^ 63.

Definition float64 : Type := SpecFloat.spec_float.

(** The conversion [float64(n)] of an [int]. *)
Definition float64_of_int (n : Z) : float64 :=
  SpecFloat.binary_normalize 53 1024 n 0 false.

Record LibreLinkError : Type := { Message : string }.

Record User : Type := {
  User_ID : string;
  User_FirstName : string;
  User_LastName : string;
  User_Email : string;
  User_Country : string }.

Record AuthRequest : Type := { AuthRequest_Email : string; AuthRequest_Password : string }.

Record AuthTicket : Type := {
  Token : string;
  Expires : time.Time;
  Duration : Z  (* time.Duration: nanoseconds, int64 *) }.

Definition zeroAuthTicket : AuthTicket :=
  {| Token := ""; Expires := time.zero; Duration := 0 |}.

(** The local [aux] of [AuthTicket.UnmarshalJSON]: its own [Expires] and
    [Duration] shadow those of the embedded [*Alias], which points to the
    ticket being filled. *)
Record auxAuthTicket : Type := {
  aux_Expires : Z;       (* int64 *)
  aux_Duration : Z;      (* int64 *)
  aux_TicketAlias : AuthTicket }.

(** [func (t *AuthTicket) UnmarshalJSON(data []byte) error]; [data] is given
    by what [json.Unmarshal(data, &aux)] makes of it. *)
Definition AuthTicket_UnmarshalJSON (data : json.decoded auxAuthTicket) : outcome AuthTicket :=
  match data with
  | json.Invalid e => Err e
  | json.Null => Panic nilDeref            (* aux is nil: aux.Expires *)
  | json.Filled aux =>
    Ok {| Token := Token (aux_TicketAlias aux);
          Expires := time.Unix (aux_Expires aux) 0;
          Duration := wrap64 (aux_Duration aux * 1000000) |}
  end.

Record AuthResponse : Type := {
  AuthResponse_User : User;
  AuthResponse_AuthTicket : AuthTicket }.

Definition zeroUser : User := Build_User "" "" "" "" "".

Definition zeroAuthResponse : AuthResponse :=
  {| AuthResponse_User := zeroUser; AuthResponse_AuthTicket := zeroAuthTicket |}.

Record RedirecResponse : Type := { Redirect : bool; Region : string }.

Record GlucoseMeasurement : Type := {
  Timestamp : time.Time;
  Type_ : Z;
  ValueInMgPerDl : Z;
  MeasurementColor : Z;
  GlucoseUnits : Z;
  Value : float64;
  IsHigh : bool;
  IsLow : bool;
  TrendArrow : Z;
  TrendMessage : option string }.

Definition withTimestamp (g : GlucoseMeasurement) (t : time.Time) : GlucoseMeasurement :=
  {| Timestamp := t; Type_ := Type_ g; ValueInMgPerDl := ValueInMgPerDl g;
     MeasurementColor := MeasurementColor g; GlucoseUnits := GlucoseUnits g;
     Value := Value g; IsHigh := IsHigh g; IsLow := IsLow g;
     TrendArrow := TrendArrow g; TrendMessage := TrendMessage g |}.

(** The local [aux] of [GlucoseMeasurement.UnmarshalJSON]: the string
    [Timestamp] takes the member [FactoryTimestamp] (it shadows the field of
    the embedded [*Alias]); the other members go to the measurement the alias
    points to. *)
Record auxGlucoseMeasurement : Type := {
  aux_Timestamp : string;
  aux_Alias : GlucoseMeasurement }.

(** [func (g *GlucoseMeasurement) UnmarshalJSON(data []byte) error]. *)
Definition GlucoseMeasurement_UnmarshalJSON (data : json.decoded auxGlucoseMeasurement)
  : outcome GlucoseMeasurement :=
  match data with
  | json.Invalid e => Err e
  | json.Null => Panic nilDeref            (* aux is nil: aux.Timestamp *)
  | json.Filled aux =>
    match parseDate (aux_Timestamp aux) with
    | Ok t => Ok (withTimestamp (aux_Alias aux) t)
    | Err e => Err e
    | Panic p => Panic p
    end
  end.

Record Connection : Type := {
  Id : string;
  PatientId : string;
  FirstName : string;
  LastName : string;
  Email : string;
  DateOfBirth : string;
  EmailVerified : bool;
  SignUpDate : string;
  Connection_GlucoseMeasurement : option GlucoseMeasurement;   (* nil or a pointer *)
  Connection_GlucoseItem : option GlucoseMeasurement }.

Definition zeroConnection : Connection :=
  Build_Connection "" "" "" "" "" "" false "" None None.

Record GraphData : Type := {
  GraphData_Connection : Connection;
  GraphData_GraphData : list GlucoseMeasurement }.

Definition zeroGraphData : GraphData :=
  {| GraphData_Connection := zeroConnection; GraphData_GraphData := [] |}.

(** *** The payloads as the decoder walks them *)

(** A JSON text for a [GlucoseMeasurement], as its [UnmarshalJSON] gets it. *)
Definition rawGlucoseMeasurement : Type := json.decoded auxGlucoseMeasurement.

(** A JSON object for a [Connection].  The two pointer members are [None]
    when the member is missing or [null] (the pointer stays nil); otherwise
    the decoder allocates the measurement and calls its [UnmarshalJSON]. *)
Record rawConnection : Type := {
  raw_Connection : Connection;   (* the members without a method of their own *)
  raw_GlucoseMeasurement : option rawGlucoseMeasurement;
  raw_GlucoseItem : option rawGlucoseMeasurement }.

Record rawGraphData : Type := {
  raw_GraphConnection : option rawConnection;    (* member "connection" *)
  raw_GraphData : list rawGlucoseMeasurement     (* member "graphData" *) }.

Record rawAuthResponse : Type := {
  raw_User : User;
  raw_AuthTicket : option (json.decoded auxAuthTicket)    (* member "authTicket" *) }.

(** [json.RawMessage]: a JSON text kept for later.  The client decodes it
    at four types; the raw message is what the decoder reads from it at
    each of them. *)
Record RawMessage : Type := {
  asRedirecResponse : json.decoded RedirecResponse;
  asAuthResponse : json.decoded rawAuthResponse;
  asConnections : json.decoded (list rawConnection);
  asGraphData : json.decoded rawGraphData }.

(** The empty raw message (no member "data" in the envelope): every decoding
    fails at the end of the input. *)
Definition noData : RawMessage :=
  {| asRedirecResponse := json.Invalid json.errEnd;
     asAuthResponse := json.Invalid json.errEnd;
     asConnections := json.Invalid json.errEnd;
     asGraphData := json.Invalid json.errEnd |}.

Record LibreLinkResp : Type := {
  Status : Z;
  Data : RawMessage;
  Ticket : AuthTicket;
  Error : option LibreLinkError    (* *LibreLinkError, nil when the member is missing *) }.

Definition zeroLibreLinkResp : LibreLinkResp :=
  {| Status := 0; Data := noData; Ticket := zeroAuthTicket; Error := None |}.

(** The envelope as the decoder walks it; the member "ticket" has an
    [UnmarshalJSON] of its own. *)
Record rawLibreLinkResp : Type := {
  raw_Status : Z;
  raw_Data : RawMessage;
  raw_Ticket : option (json.decoded auxAuthTicket);
  raw_Error : option LibreLinkError }.

(** A pointer member with an [UnmarshalJSON]: nil when missing. *)
Definition decodePointer (r : option rawGlucoseMeasurement) : outcome (option GlucoseMeasurement) :=
  match r with
  | None => Ok None
  | Some data => g <- GlucoseMeasurement_UnmarshalJSON data ;; Ok (Some g)
  end.

Definition decodeTicket (r : option (json.decoded auxAuthTicket)) : outcome AuthTicket :=
  match r with
  | None => Ok zeroAuthTicket
  | Some data => AuthTicket_UnmarshalJSON data
  end.

(** The decoder at a [Connection]: the first error or panic of a method
    ends the decoding. *)
Definition decodeConnection (r : rawConnection) : outcome Connection :=
  m <- decodePointer (raw_GlucoseMeasurement r) ;;
  i <- decodePointer (raw_GlucoseItem r) ;;
  let c := raw_Connection r in
  Ok (Build_Connection (Id c) (PatientId c) (FirstName c) (LastName c) (Email c)
        (DateOfBirth c) (EmailVerified c) (SignUpDate c) m i).

Fixpoint mapM {A B} (f : A -> outcome B) (l : list A) : outcome (list B) :=
  match l with
  | [] => Ok []
  | a :: l' => b <- f a ;; bs <- mapM f l' ;; Ok (b :: bs)
  end.

Definition decodeGraphData (r : rawGraphData) : outcome GraphData :=
  c <- match raw_GraphConnection r with
       | None => Ok zeroConnection
       | Some rc => decodeConnection rc
       end ;;
  g <- mapM GlucoseMeasurement_UnmarshalJSON (raw_GraphData r) ;;
  Ok {| GraphData_Connection := c; GraphData_GraphData := g |}.

Definition decodeAuthResponse (r : rawAuthResponse) : outcome AuthResponse :=
  t <- decodeTicket (raw_AuthTicket r) ;;
  Ok {| AuthResponse_User := raw_User r; AuthResponse_AuthTicket := t |}.

(** [json.Unmarshal(data, &v)] where [v] starts as the zero value [z]. *)
Definition unmarshal {R A} (walk : R -> outcome A) (z : A) (data : json.decoded R) : outcome A :=
  match data with
  | json.Invalid e => Err e
  | json.Null => Ok z
  | json.Filled r => walk r
  end.

(** [json.Unmarshal(raw, &libreResp)] in [doRequest]. *)
Definition unmarshalLibreLinkResp (body : json.decoded rawLibreLinkResp) : outcome LibreLinkResp :=
  unmarshal
    (fun r =>
       t <- decodeTicket (raw_Ticket r) ;;
       Ok {| Status := raw_Status r; Data := raw_Data r; Ticket := t; Error := raw_Error r |})
    zeroLibreLinkResp body.

(** [getPayload[T](resp, out)]: [json.Unmarshal(resp.Data, &out)], one
    definition for each [T] the client uses. *)
Definition getPayload_RedirecResponse (resp : LibreLinkResp) : outcome RedirecResponse :=
  unmarshal (fun r => Ok r) {| Redirect := false; Region := "" |} (asRedirecResponse (Data resp)).

Definition getPayload_Connections (resp : LibreLinkResp) : outcome (list Connection) :=
  unmarshal (mapM decodeConnection) [] (asConnections (Data resp)).

Definition getPayload_GraphData (resp : LibreLinkResp) : outcome GraphData :=
  unmarshal decodeGraphData zeroGraphData (asGraphData (Data resp)).

(** ** Package librelink: the client (client.go) *)

(** A [*url.URL], by its text. *)
Definition URL : Type := string.

(** A [*http.Request] as [prepareRequest] builds it. *)
Record Request : Type := {
  Method : string;
  Url : URL;
  Header : list (string * string);
  Body : string    (* the bytes the request sends; empty for no body *) }.

(** An [*http.Response]; its body by what the decoder reads from it as an
    envelope. *)
Record Response : Type := {
  StatusCode : Z;
  RespBody : json.decoded rawLibreLinkResp }.

(** What the client calls outside the repository: the Go library and the
    remote service behind [httpClient.Do].  The remote answers a request
    knowing the requests sent before it (latest first). *)
Record Runtime : Type := {
  sha256hex : string -> string;               (* hex.EncodeToString(sha256.Sum256(..)) *)
  urlParse : string -> outcome URL;           (* url.Parse *)
  urlJoinPath : URL -> string -> URL;         (* URL.JoinPath *)
  newRequest : string -> URL -> option error; (* http.NewRequestWithContext: its error *)
  jsonMarshal : AuthRequest -> outcome string;(* json.Marshal *)
  httpDo : list Request -> Request -> outcome Response   (* httpClient.Do *) }.

Definition getUrl (region : string) : string :=
  if String.eqb region "" then "https://api.libreview.io"
  else "https://api-" ++ region ++ ".libreview.io".

Record librelinkCreds : Type := { ticket : AuthTicket; id : string }.

Record LibreLinkClient : Type := {
  baseUrl : URL;
  user : string;
  password : string;
  creds : option librelinkCreds    (* nil until authenticated *) }.

(** The state the operations work on: the client they point to and the
    requests it has sent (latest first). *)
Record State : Type := { client : LibreLinkClient; sent : list Request }.

Definition setBaseUrl (c : LibreLinkClient) (u : URL) : LibreLinkClient :=
  {| baseUrl := u; user := user c; password := password c; creds := creds c |}.

Definition setCreds (c : LibreLinkClient) (k : librelinkCreds) : LibreLinkClient :=
  {| baseUrl := baseUrl c; user := user c; password := password c; creds := Some k |}.

Section Client.

Variable rt : Runtime.

Definition NewLibreLinkCreds (userId : string) (t : AuthTicket) : librelinkCreds :=
  {| ticket := t; id := sha256hex rt userId |}.

(** [handleRedirect]: the flag, the error, and the client after the call. *)
Definition handleRedirect (c : LibreLinkClient) (resp : LibreLinkResp)
  : outcome bool * LibreLinkClient :=
  match getPayload_RedirecResponse resp with
  | Panic p => (Panic p, c)
  | Err _ => (Ok false, c)
  | Ok redirect =>
    if negb (Redirect redirect) then (Ok false, c)
    else if String.eqb (Region redirect) "" then
      (Err "redirect requested but no region provided", c)
    else
      match urlParse rt (getUrl (Region redirect)) with
      | Ok u => (Ok true, setBaseUrl c u)
      | Err e => (Err ("failed to parse redirect URL: " ++ e), c)
      | Panic p => (Panic p, c)
      end
  end.

Definition fixedHeaders : list (string * string) :=
  [("Accept", "application/json"); ("Content-Type", "application/json");
   ("product", "llu.android"); ("version", "4.16.0");
   ("cache-control", "no-cache"); ("connection", "Keep-Alive")].

(** [prepareRequest]; [body] is what is left to read in the reader the
    caller passed ([None] for a nil reader). *)
Definition prepareRequest (c : LibreLinkClient) (method endpoint : string) (body : option string)
  : outcome Request :=
  let rel := urlJoinPath rt (baseUrl c) endpoint in
  match newRequest rt method rel with
  | Some e => Err ("failed to create request: " ++ e)
  | None =>
    Ok {| Method := method;
          Url := rel;
          Header := fixedHeaders ++
            match creds c with
            | Some k => [("account-id", id k); ("Authorization", "Bearer " ++ Token (ticket k))]
            | None => []
            end;
          Body := match body with Some b => b | None => "" end |}
  end.

(** The reader after [httpClient.Do] has sent the request: read to its end. *)
Definition drained (body : option string) : option string :=
  match body with
  | Some _ => Some ""
  | None => None
  end.

(** [doRequest].  The source recurses after a redirect with no bound; [fuel]
    bounds the number of requests, and [None] means the bound was reached
    before the call returned. *)
Fixpoint doRequest (fuel : nat) (s : State) (method endpoint : string) (body : option string)
  : option (outcome LibreLinkResp * State) :=
  match fuel with
  | O => None
  | S fuel' =>
    match prepareRequest (client s) method endpoint body with
    | Panic p => Some (Panic p, s)
    | Err e => Some (Err ("failed to prepare request: " ++ e), s)
    | Ok req =>
      let s1 := {| client := client s; sent := req :: sent s |} in
      match httpDo rt (sent s) req with
      | Panic p => Some (Panic p, s1)
      | Err e => Some (Err ("request failed: " ++ e), s1)
      | Ok resp =>
        if negb (StatusCode resp =? 200) then
          Some (Err ("unexpected status code: " ++ itoa (StatusCode resp)), s1)
        else
          match unmarshalLibreLinkResp (RespBody resp) with
          | Panic p => Some (Panic p, s1)
          | Err e => Some (Err ("failed to decode response body: " ++ e), s1)
          | Ok libreResp =>
            if negb (Status libreResp =? 0) then
              match Error libreResp with
              | None => Some (Panic nilDeref, s1)       (* libreResp.Error.Message *)
              | Some er =>
                Some (Err ("API error " ++ itoa (Status libreResp) ++ ": " ++ Message er), s1)
              end
            else
              match handleRedirect (client s1) libreResp with
              | (Panic p, c2) => Some (Panic p, {| client := c2; sent := sent s1 |})
              | (Err e, c2) =>
                Some (Err ("failed to handle redirect: " ++ e), {| client := c2; sent := sent s1 |})
              | (Ok true, c2) =>
                (* retry the request with the new base URL *)
                doRequest fuel' {| client := c2; sent := sent s1 |} method endpoint (drained body)
              | (Ok false, c2) => Some (Ok libreResp, {| client := c2; sent := sent s1 |})
              end
          end
      end
    end
  end.

Definition Authenticate (fuel : nat) (s : State) : option (outcome unit * State) :=
  let endpoint := "llu/auth/login" in
  let authRequest :=
    {| AuthRequest_Email := user (client s); AuthRequest_Password := password (client s) |} in
  match jsonMarshal rt authRequest with
  | Panic p => Some (Panic p, s)
  | Err e => Some (Err ("failed to marshal request body: " ++ e), s)
  | Ok reqBody =>
    match doRequest fuel s "POST" endpoint (Some reqBody) with
    | None => None
    | Some (Panic p, s1) => Some (Panic p, s1)
    | Some (Err e, s1) => Some (Err e, s1)
    | Some (Ok resp, s1) =>
      match unmarshal decodeAuthResponse zeroAuthResponse (asAuthResponse (Data resp)) with
      | Panic p => Some (Panic p, s1)
      | Err e => Some (Err ("failed to decode response body: " ++ e), s1)
      | Ok authResp =>
        let k := NewLibreLinkCreds (User_ID (AuthResponse_User authResp))
                                   (AuthResponse_AuthTicket authResp) in
        Some (Ok tt, {| client := setCreds (client s1) k; sent := sent s1 |})
      end
    end
  end.

Definition GetConnections (fuel : nat) (s : State) : option (outcome (list Connection) * State) :=
  match doRequest fuel s "GET" "llu/connections" None with
  | None => None
  | Some (Panic p, s1) => Some (Panic p, s1)
  | Some (Err e, s1) => Some (Err e, s1)
  | Some (Ok resp, s1) =>
    match getPayload_Connections resp with
    | Panic p => Some (Panic p, s1)
    | Err e => Some (Err ("failed to decode connections: " ++ e), s1)
    | Ok connections => Some (Ok connections, s1)
    end
  end.

Definition getGraphData (fuel : nat) (s : State) (connectionId : string)
  : option (outcome GraphData * State) :=
  let endpoint := "llu/connections/" ++ connectionId ++ "/graph" in
  match doRequest fuel s "GET" endpoint None with
  | None => None
  | Some (Panic p, s1) => Some (Panic p, s1)
  | Some (Err e, s1) => Some (Err e, s1)
  | Some (Ok resp, s1) =>
    match getPayload_GraphData resp with
    | Panic p => Some (Panic p, s1)
    | Err e => Some (Err ("failed to decode graph data: " ++ e), s1)
    | Ok graphData => Some (Ok graphData, s1)
    end
  end.

Definition GetLatestReading (fuel : nat) (s : State) (connectionId : string)
  : option (outcome GlucoseMeasurement * State) :=
  match getGraphData fuel s connectionId with
  | None => None
  | Some (Panic p, s1) => Some (Panic p, s1)
  | Some (Err e, s1) => Some (Err e, s1)
  | Some (Ok graphData, s1) =>
    match Connection_GlucoseMeasurement (GraphData_Connection graphData) with
    | None => Some (Panic nilDeref, s1)     (* *graphData.Connection.GlucoseMeasurement *)
    | Some m => Some (Ok m, s1)
    end
  end.

Definition IsAuthenticated (c : LibreLinkClient) : bool :=
  match creds c with
  | Some _ => true
  | None => false
  end.

(** Modelled from the spec: the exported [GetGraphData] that the collector
    calls is not in the source (only the unexported [getGraphData] is).  The
    spec's [fetchGraphData(connectionId)] "returns current + historic
    readings for one connection; same failure modes", which is what
    [getGraphData] does. *)
Definition GetGraphData := getGraphData.

(** ** Package collector (metrics.go) *)

Record Desc : Type := { fqName : string; help : string; variableLabels : list string }.

(** A gauge sample built by [MustNewConstMetric] and stamped by
    [NewMetricWithTimestamp]. *)
Record Metric : Type := {
  desc : Desc;
  value : float64;
  labelValues : list string;
  timestamp : time.Time }.

Definition glucoseLevelDesc : Desc :=
  {| fqName := "glucose_librelink_level_mmoll";
     help := "Current glucose level in mmmol/L";
     variableLabels := ["patient_id"; "patient_name"] |}.

Definition trendDesc : Desc :=
  {| fqName := "glucose_librelink_trend";
     help := "Current glucose trend";
     variableLabels := ["patient_id"; "patient_name"] |}.

Definition historicDataDesc : Desc :=
  {| fqName := "glucose_librelink_historic_level";
     help := "Historic glucose data";
     variableLabels := ["patient_id"; "patient_name"] |}.

(** The metrics [collectGlucose] sends for a graph payload that has a
    current reading. *)
Definition glucoseMetrics (connection : Connection) (reading : GlucoseMeasurement)
  (history : list GlucoseMeasurement) : list Metric :=
  let patient_name := FirstName connection ++ " " ++ LastName connection in
  [ {| desc := glucoseLevelDesc; value := Value reading;
       labelValues := [PatientId connection; patient_name];
       timestamp := Timestamp reading |};
    {| desc := trendDesc; value := float64_of_int (TrendArrow reading);
       labelValues := [PatientId connection; patient_name];
       timestamp := Timestamp reading |} ]
  ++ map (fun historic =>
            {| desc := historicDataDesc; value := Value historic;
               labelValues := [PatientId connection; patient_name];
               timestamp := Timestamp historic |})
         history.

(** [collectGlucose]: the state after the call and the channel [ch] with
    what was sent on it appended. *)
Definition collectGlucose (fuel : nat) (s : State) (ch : list Metric) (connection : Connection)
  : option (outcome unit * State * list Metric) :=
  match GetGraphData fuel s (PatientId connection) with
  | None => None
  | Some (Panic p, s1) => Some (Panic p, s1, ch)
  | Some (Err _, s1) => Some (Ok tt, s1, ch)
  | Some (Ok data, s1) =>
    match Connection_GlucoseMeasurement (GraphData_Connection data) with
    | None => Some (Ok tt, s1, ch)
    | Some reading =>
      Some (Ok tt, s1, (ch ++ glucoseMetrics connection reading (GraphData_GraphData data))%list)
    end
  end.

(** The loop [for _, c := range conn] of [Collect]. *)
Fixpoint collectAll (fuel : nat) (s : State) (ch : list Metric) (conn : list Connection)
  : option (outcome unit * State * list Metric) :=
  match conn with
  | [] => Some (Ok tt, s, ch)
  | c :: conn' =>
    match collectGlucose fuel s ch c with
    | None => None
    | Some (Ok _, s1, ch1) => collectAll fuel s1 ch1 conn'
    | Some (Err e, s1, ch1) => Some (Err e, s1, ch1)
    | Some (Panic p, s1, ch1) => Some (Panic p, s1, ch1)
    end
  end.

(** [Collect]: it has no result; [Ok tt] is its return. *)
Definition Collect (fuel : nat) (s : State) (ch : list Metric)
  : option (outcome unit * State * list Metric) :=
  let afterAuth :=
    if negb (IsAuthenticated (client s)) then
      match Authenticate fuel s with
      | None => None
      | Some (r, s1) => Some (r, s1)
      end
    else Some (Ok tt, s) in
  match afterAuth with
  | None => None
  | Some (Panic p, s1) => Some (Panic p, s1, ch)
  | Some (Err _, s1) => Some (Ok tt, s1, ch)
  | Some (Ok _, s1) =>
    match GetConnections fuel s1 with
    | None => None
    | Some (Panic p, s2) => Some (Panic p, s2, ch)
    | Some (Err _, s2) => Some (Ok tt, s2, ch)
    | Some (Ok conn, s2) => collectAll fuel s2 ch conn
    end
  end.

End Client.

(** ** Building the client and the collector (client.go, metrics.go, main.go) *)

Section Setup.

Variable rt : Runtime.

(** [WithExpiringCredentials]: the option that stores pre-issued
    credentials. *)
Definition WithExpiringCredentials (userId token : string) (expiry : time.Time)
  (c : LibreLinkClient) : LibreLinkClient :=
  setCreds c (NewLibreLinkCreds rt userId {| Token := token; Expires := expiry; Duration := 0 |}).

Definition WithCredentials (userId token : string) : LibreLinkClient -> LibreLinkClient :=
  WithExpiringCredentials userId token time.zero.

(** [WithLogger]: the logger is not part of the model of the client. *)
Definition WithLogger (c : LibreLinkClient) : LibreLinkClient := c.

(** [NewLibreLinkClient].  The source drops the error of [url.Parse]; had
    the parse failed the base URL would be nil, which the model of the
    client does not have: [None]. *)
Definition NewLibreLinkClient (user password : string)
  (options : list (LibreLinkClient -> LibreLinkClient)) : option LibreLinkClient :=
  match urlParse rt "https://api.libreview.io" with
  | Ok u =>
    Some (fold_left (fun c option => option c) options
            {| baseUrl := u; user := user; password := password; creds := None |})
  | _ => None
  end.

(** [Describe]: [prometheus.DescribeByCollect] runs [Collect] and sends the
    descriptor of every metric it collects. *)
Definition Describe (fuel : nat) (s : State) (descs : list Desc)
  : option (outcome unit * State * list Desc) :=
  match Collect rt fuel s [] with
  | None => None
  | Some (r, s1, metrics) => Some (r, s1, (descs ++ map desc metrics)%list)
  end.

(** [CliCredentials] of the command line. *)
Record CliCredentials : Type := { UserId : string; CliToken : string; Expiry : time.Time }.

(** [CliCredentials.Validate]; [now] is [time.Now()] (the line the source
    prints first is left out). *)
Definition Validate (now : time.Time) (c : CliCredentials) : outcome unit :=
  if (String.eqb (UserId c) "" && negb (String.eqb (CliToken c) ""))
     || (negb (String.eqb (UserId c) "") && String.eqb (CliToken c) "")
  then Err "both UserId and Token must be provided together"
  else if negb (time.IsZero (Expiry c)) && time.Before (Expiry c) now
  then Err "token expiry must be in the future"
  else Ok tt.

Definition IsSet (c : CliCredentials) : bool :=
  negb (String.eqb (UserId c) "") && negb (String.eqb (CliToken c) "").

(** The options and the client that [main] builds from the configuration. *)
Definition mainClient (username password : string) (c : CliCredentials) : option LibreLinkClient :=
  NewLibreLinkClient username password
    ([WithLogger] ++
     (if IsSet c then [WithExpiringCredentials (UserId c) (CliToken c) (Expiry c)] else [])).

End Setup.

(** * Notions and scenarios for the properties *)

(** ** What a request, a session and a remote are taken to be *)

Section Notions.

Variable rt : Runtime.

(** What a request that gets an envelope goes through before the envelope
    is looked at. *)
Definition answered (s : State) (method endpoint : string) (body : option string)
  (req : Request) (libreResp : LibreLinkResp) : Prop :=
  prepareRequest rt (client s) method endpoint body = Ok req
  /\ exists resp,
       httpDo rt (sent s) req = Ok resp
       /\ StatusCode resp = 200
       /\ unmarshalLibreLinkResp (RespBody resp) = Ok libreResp.

Definition afterSend (s : State) (req : Request) : State :=
  {| client := client s; sent := req :: sent s |}.


(** A remote that answers every request with a redirect to [region]. *)
Definition redirectsForever (region : string) (u : URL) : Prop :=
  region <> ""
  /\ urlParse rt (getUrl region) = Ok u
  /\ (forall method url, newRequest rt method url = None)
  /\ (forall history req,
        exists resp libreResp,
          httpDo rt history req = Ok resp
          /\ StatusCode resp = 200
          /\ unmarshalLibreLinkResp (RespBody resp) = Ok libreResp
          /\ Status libreResp = 0
          /\ getPayload_RedirecResponse libreResp = Ok {| Redirect := true; Region := region |}).

End Notions.

(** The two headers that carry the credentials. *)
Definition authHeaders (k : option librelinkCreds) : list (string * string) :=
  match k with
  | Some k => [("account-id", id k); ("Authorization", "Bearer " ++ Token (ticket k))]
  | None => []
  end.

(** From [s] to [s1] the client sent some requests, all of them with the
    property [P], and nothing else about the requests changed. *)
Definition sentOnly (P : Request -> Prop) (s s1 : State) : Prop :=
  exists new, sent s1 = (new ++ sent s)%list /\ Forall P new.

(** The descriptors of the collector. *)
Definition collectorDescs : list Desc := [glucoseLevelDesc; trendDesc; historicDataDesc].

(** A metric as [MustNewConstMetric] wants it: a descriptor of the
    collector and as many label values as the descriptor has labels. *)
Definition wellLabelled (m : Metric) : Prop :=
  In (desc m) collectorDescs
  /\ List.length (labelValues m) = List.length (variableLabels (desc m)).

Arguments GetGraphData rt fuel s connectionId /.

(** ** Scripted remotes and payloads *)

Definition quote : string := String (ascii_of_nat 34) "".

(** A runtime whose remote answers the n-th request with the n-th entry of
    [script] and refuses the connection afterwards; URLs are joined with a
    slash and every URL parses. *)
Definition scripted (script : list (outcome Response)) : Runtime :=
  {| sha256hex := fun userId => "sha256(" ++ userId ++ ")";
     urlParse := fun u => Ok u;
     urlJoinPath := fun base endpoint => base ++ "/" ++ endpoint;
     newRequest := fun _ _ => None;
     jsonMarshal := fun r =>
       Ok ("{" ++ quote ++ "email" ++ quote ++ ":" ++ quote ++ AuthRequest_Email r ++ quote ++ ","
               ++ quote ++ "password" ++ quote ++ ":" ++ quote ++ AuthRequest_Password r ++ quote ++ "}");
     httpDo := fun history _ => nth (List.length history) script (Err "connection refused") |}.

(** A remote that answers every request with the same response. *)
Definition constant (resp : outcome Response) : Runtime :=
  {| sha256hex := sha256hex (scripted []);
     urlParse := urlParse (scripted []);
     urlJoinPath := urlJoinPath (scripted []);
     newRequest := newRequest (scripted []);
     jsonMarshal := jsonMarshal (scripted []);
     httpDo := fun _ _ => resp |}.

Definition freshClient : LibreLinkClient :=
  {| baseUrl := "https://api.libreview.io"; user := "ann@example.org"; password := "secret";
     creds := None |}.

Definition start (c : LibreLinkClient) : State := {| client := c; sent := [] |}.

(** An envelope with status zero and the given payload. *)
Definition envelope (d : RawMessage) : outcome Response :=
  Ok {| StatusCode := 200;
        RespBody := json.Filled {| raw_Status := 0; raw_Data := d; raw_Ticket := None;
                                   raw_Error := None |} |}.

Definition typeError : error := "json: cannot unmarshal into Go value".

(** The payload of a redirect to region [r]: an object with the members
    redirect (true) and region; it has none of the members of the other
    payload types, and it is no array. *)
Definition redirectTo (r : string) : RawMessage :=
  {| asRedirecResponse := json.Filled {| Redirect := true; Region := r |};
     asAuthResponse := json.Filled {| raw_User := zeroUser; raw_AuthTicket := None |};
     asConnections := json.Invalid typeError;
     asGraphData := json.Filled {| raw_GraphConnection := None; raw_GraphData := [] |} |}.

(** The host as the specification words it: [https://api.<region>.<service-domain>]. *)
Definition getUrl_spec (region : string) : string :=
  if String.eqb region "" then "https://api.libreview.io"
  else "https://api." ++ region ++ ".libreview.io".

(** An envelope with status 2 and no error object, as in the body
    [{status: 2}]. *)
Definition rejectedWithoutError : outcome Response :=
  Ok {| StatusCode := 200;
        RespBody := json.Filled {| raw_Status := 2; raw_Data := noData; raw_Ticket := None;
                                   raw_Error := None |} |}.

(** The same with the error object the remote usually sends. *)
Definition rejectedWithError : outcome Response :=
  Ok {| StatusCode := 200;
        RespBody := json.Filled {| raw_Status := 2; raw_Data := noData; raw_Ticket := None;
                                   raw_Error := Some {| Message := "notAuthenticated" |} |} |}.

(** A connection that is configured but has no current reading, and its
    graph payload with the given historic entries. *)
Definition idleConnection : Connection :=
  {| Id := "c-1"; PatientId := "p-1"; FirstName := "Ada"; LastName := "Byron";
     Email := ""; DateOfBirth := ""; EmailVerified := false; SignUpDate := "";
     Connection_GlucoseMeasurement := None; Connection_GlucoseItem := None |}.

Definition reading (stamp : string) (v : float64) (trend : Z) : rawGlucoseMeasurement :=
  json.Filled
    {| aux_Timestamp := stamp;
       aux_Alias := {| Timestamp := time.zero; Type_ := 1; ValueInMgPerDl := 100;
                       MeasurementColor := 1; GlucoseUnits := 0; Value := v;
                       IsHigh := false; IsLow := false; TrendArrow := trend;
                       TrendMessage := None |} |}.

(** A graph payload: an object, so it also reads as a redirect payload
    with no redirect member, and it is no array. *)
Definition graphPayload (c : Connection) (current : option rawGlucoseMeasurement)
  (history : list rawGlucoseMeasurement) : RawMessage :=
  {| asRedirecResponse := json.Filled {| Redirect := false; Region := "" |};
     asAuthResponse := json.Filled {| raw_User := zeroUser; raw_AuthTicket := None |};
     asConnections := json.Invalid typeError;
     asGraphData :=
       json.Filled {| raw_GraphConnection :=
                        Some {| raw_Connection := c; raw_GlucoseMeasurement := current;
                                raw_GlucoseItem := None |};
                      raw_GraphData := history |} |}.

Definition f64 (n : Z) : float64 := float64_of_int n.

Definition twoHistoric : list rawGlucoseMeasurement :=
  [reading "9/7/2025 5:46:03 PM" (f64 101) 3; reading "9/7/2025 5:51:03 PM" (f64 104) 3].

Definition heldCreds : librelinkCreds :=
  {| ticket := {| Token := "t0"; Expires := time.Unix 1773417313 0; Duration := 0 |};
     id := "sha256(u0)" |}.

Definition authenticatedClient : LibreLinkClient := setCreds freshClient heldCreds.

Definition ada : Connection :=
  {| Id := "c-2"; PatientId := "p-2"; FirstName := "Ada"; LastName := "Lovelace";
     Email := ""; DateOfBirth := ""; EmailVerified := false; SignUpDate := "";
     Connection_GlucoseMeasurement := None; Connection_GlucoseItem := None |}.

Definition bob : Connection :=
  {| Id := "c-3"; PatientId := "p-3"; FirstName := "Bob"; LastName := "Noyce";
     Email := ""; DateOfBirth := ""; EmailVerified := false; SignUpDate := "";
     Connection_GlucoseMeasurement := None; Connection_GlucoseItem := None |}.

(** The payload of a successful login. *)
Definition loginPayload : RawMessage :=
  {| asRedirecResponse := json.Filled {| Redirect := false; Region := "" |};
     asAuthResponse :=
       json.Filled
         {| raw_User := {| User_ID := "u-1"; User_FirstName := "Ann"; User_LastName := "Lee";
                           User_Email := "ann@example.org"; User_Country := "DE" |};
            raw_AuthTicket :=
              Some (json.Filled
                      {| aux_Expires := 1773417313; aux_Duration := 15552000000;
                         aux_TicketAlias :=
                           {| Token := "eyveioubn"; Expires := time.zero; Duration := 0 |} |}) |};
     asConnections := json.Invalid typeError;
     asGraphData := json.Filled {| raw_GraphConnection := None; raw_GraphData := [] |} |}.

(** The payload of a connection list: an array, which no struct takes. *)
Definition connectionsPayload (cs : list Connection) : RawMessage :=
  {| asRedirecResponse := json.Invalid typeError;
     asAuthResponse := json.Invalid typeError;
     asConnections :=
       json.Filled (map (fun c => {| raw_Connection := c; raw_GlucoseMeasurement := None;
                                     raw_GlucoseItem := None |}) cs);
     asGraphData := json.Invalid typeError |}.

Definition current : rawGlucoseMeasurement := reading "9/7/2025 6:01:03 PM" (f64 110) 4.

Definition threeHistoric : list rawGlucoseMeasurement :=
  [reading "9/7/2025 5:46:03 PM" (f64 101) 3; reading "9/7/2025 5:51:03 PM" (f64 104) 3;
   reading "9/7/2025 5:56:03 PM" (f64 107) 4].

(** Login, the list with Ada, her graph data. *)
Definition loginThenAda : Runtime :=
  scripted [envelope loginPayload; envelope (connectionsPayload [ada]);
            envelope (graphPayload ada (Some current) threeHistoric)].

(** The list with Ada and Bob; the request for Ada's graph data fails in
    the transport; Bob's graph data arrive. *)
Definition adaFailsBobAnswers : Runtime :=
  scripted [envelope (connectionsPayload [ada; bob]); Err "context deadline exceeded";
            envelope (graphPayload bob (Some current) threeHistoric)].



(** The graph payload of a connection with no current reading and two
    historic entries. *)
Definition idleWithHistory : Runtime :=
  constant (envelope (graphPayload idleConnection None twoHistoric)).

Definition listThenIdle : Runtime :=
  scripted [envelope (connectionsPayload [idleConnection]);
            envelope (graphPayload idleConnection None twoHistoric)].

(** The remote redirects every request to the region "de". *)
Definition alwaysRedirects : Runtime := constant (envelope (redirectTo "de")).

(** The remote redirects to "de", then to "fr", then answers. *)
Definition redirectsTwice : Runtime :=
  scripted [envelope (redirectTo "de"); envelope (redirectTo "fr");
            envelope (connectionsPayload [ada])].

(** ** Date strings *)

(** The digit [d] as a character. *)
Definition digitChar (d : Z) : ascii := ascii_of_nat (Z.to_nat (48 + d)).

(** A number below 100 without padding, as the elements "1", "2" and "3"
    of a layout print it. *)
Definition unpadded (n : Z) : string :=
  if n <? 10 then String (digitChar n) ""
  else String (digitChar (n / 10)) (String (digitChar (n mod 10)) "").

(** A number below 100 on two digits ("04", "05"). *)
Definition twoDigit (n : Z) : string :=
  String (digitChar (n / 10)) (String (digitChar (n mod 10)) "").

(** A year on four digits ("2006"). *)
Definition fourDigit (y : Z) : string :=
  String (digitChar (y / 1000)) (String (digitChar (y / 100 mod 10))
    (String (digitChar (y / 10 mod 10)) (String (digitChar (y mod 10)) ""))).

(** The text [M/D/YYYY h:mm:ss AM|PM] of a date and a time of the 12-hour
    clock. *)
Definition formatDate (y mo d h mi se : Z) (pm : bool) : string :=
  unpadded mo ++ "/" ++ unpadded d ++ "/" ++ fourDigit y ++ " "
  ++ unpadded h ++ ":" ++ twoDigit mi ++ ":" ++ twoDigit se ++ " "
  ++ (if pm then "PM" else "AM").

(** The hour of the 24-hour clock. *)
Definition hour24 (h : Z) (pm : bool) : Z :=
  if pm then (if h <? 12 then h + 12 else h) else (if h =? 12 then 0 else h).

(** A well-formed date string: the text of a day of the calendar and a time
    of the 12-hour clock. *)
Definition wellFormed (s : string) (y mo d h mi se : Z) (pm : bool) : Prop :=
  0 <= y <= 9999 /\ 1 <= mo <= 12 /\ 1 <= d <= time.daysIn mo y
  /\ 1 <= h <= 12 /\ 0 <= mi <= 59 /\ 0 <= se <= 59
  /\ s = formatDate y mo d h mi se pm.

(** The fields after an element was read. *)
Definition setMonth (f : time.fields) (m : Z) : time.fields :=
  time.mkFields (time.year f) m (time.day f) (time.hour f) (time.min f) (time.sec f)
    (time.nsec f) (time.pmSet f) (time.amSet f).

(** *** What the layout accepts *)

Fixpoint allDigits (t : string) : bool :=
  match t with
  | EmptyString => true
  | String c t' => time.isDigitChar c && allDigits t'
  end.

Fixpoint allSpaces (t : string) : bool :=
  match t with
  | EmptyString => true
  | String c t' => Ascii.eqb c " " && allSpaces t'
  end.

(** The number a string of digits spells, after [x]. *)
Fixpoint numeralFrom (t : string) (x : Z) : Z :=
  match t with
  | EmptyString => x
  | String c t' => numeralFrom t' (x * 10 + time.digitVal c)
  end.

Definition numeral (t : string) : Z := numeralFrom t 0.

(** The pieces of a date string. *)
Record dateText : Type := {
  tMonth : string; tDay : string; tYear : string; tGap1 : string;
  tHour : string; tMinute : string; tSecond : string; tFraction : string;
  tGap2 : string; tHalf : string }.

Definition spell (p : dateText) : string :=
  tMonth p ++ "/" ++ tDay p ++ "/" ++ tYear p ++ tGap1 p
  ++ tHour p ++ ":" ++ tMinute p ++ ":" ++ tSecond p ++ tFraction p ++ tGap2 p ++ tHalf p.

Definition digitsOfLength (lo hi : nat) (t : string) : Prop :=
  allDigits t = true /\ (lo <= String.length t <= hi)%nat.

Definition spaceRun (t : string) : Prop := t <> "" /\ allSpaces t = true.

(** Nothing, or a period or comma and at least one digit. *)
Definition fraction (t : string) : Prop :=
  t = "" \/ exists c ds, t = String c ds /\ time.commaOrPeriod c = true
                         /\ ds <> "" /\ allDigits ds = true.

(** The nanoseconds of a fraction: its first nine digits count. *)
Definition nanoseconds (fr : string) : Z :=
  match fr with
  | EmptyString => 0
  | String _ ds =>
    numeral (time.take 9 ds) * 10 ^ Z.of_nat (9 - Nat.min 9 (String.length ds))
  end.

(** The strings [time.Parse] takes for the layout of the client: the strict
    form, and besides it a second digit (a leading zero, say) in month, day
    and hour, an hour of 0, a run of spaces where the layout has one space,
    and a fractional second after the seconds. *)
Definition tolerated (p : dateText) : Prop :=
  digitsOfLength 1 2 (tMonth p) /\ digitsOfLength 1 2 (tDay p)
  /\ digitsOfLength 4 4 (tYear p) /\ spaceRun (tGap1 p)
  /\ digitsOfLength 1 2 (tHour p) /\ digitsOfLength 2 2 (tMinute p)
  /\ digitsOfLength 2 2 (tSecond p) /\ fraction (tFraction p) /\ spaceRun (tGap2 p)
  /\ (tHalf p = "AM" \/ tHalf p = "PM")
  /\ 1 <= numeral (tMonth p) <= 12
  /\ 1 <= numeral (tDay p) <= time.daysIn (numeral (tMonth p)) (numeral (tYear p))
  /\ numeral (tHour p) <= 12 /\ numeral (tMinute p) <= 59 /\ numeral (tSecond p) <= 59.

Definition instantOf (p : dateText) : time.Time :=
  time.Date (numeral (tYear p)) (numeral (tMonth p)) (numeral (tDay p))
    (hour24 (numeral (tHour p)) (String.eqb (tHalf p) "PM"))
    (numeral (tMinute p)) (numeral (tSecond p)) (nanoseconds (tFraction p)).

Definition setYear f y := time.mkFields y (time.month f) (time.day f) (time.hour f)
  (time.min f) (time.sec f) (time.nsec f) (time.pmSet f) (time.amSet f).
Definition setDay f d := time.mkFields (time.year f) (time.month f) d (time.hour f)
  (time.min f) (time.sec f) (time.nsec f) (time.pmSet f) (time.amSet f).
Definition setHour f h := time.mkFields (time.year f) (time.month f) (time.day f) h
  (time.min f) (time.sec f) (time.nsec f) (time.pmSet f) (time.amSet f).
Definition setMin f m := time.mkFields (time.year f) (time.month f) (time.day f) (time.hour f)
  m (time.sec f) (time.nsec f) (time.pmSet f) (time.amSet f).
Definition setSec f s ns := time.mkFields (time.year f) (time.month f) (time.day f) (time.hour f)
  (time.min f) s ns (time.pmSet f) (time.amSet f).

Definition noPanic {A} (m : outcome A) : Prop := forall p, m <> Panic p.

(** A date string in the sense of the layout. *)
Definition toleratedDate (s : string) : Prop := exists p, s = spell p /\ tolerated p.

(** ** Notions and scenarios for the further properties *)

Section MoreNotions.

Variable rt : Runtime.

(** The requests of one call. *)
Definition requestOf (s : State) (method endpoint : string) (q : Request) : Prop :=
  Method q = method
  /\ Header q = (fixedHeaders ++ authHeaders (creds (client s)))%list
  /\ exists base, Url q = urlJoinPath rt base endpoint.

(** Requests of a client that holds the credentials [k], by [GET]. *)
Definition authenticatedGet (k : librelinkCreds) (q : Request) : Prop :=
  Method q = "GET" /\ Header q = (fixedHeaders ++ authHeaders (Some k))%list.

(** The credentials that the options store. *)
Definition issued (userId token : string) (expiry : time.Time) : librelinkCreds :=
  {| ticket := {| Token := token; Expires := expiry; Duration := 0 |};
     id := sha256hex rt userId |}.

End MoreNotions.

(** The measurement that a raw entry decodes to. *)
Definition decodesTo (raw : rawGlucoseMeasurement) (m : GlucoseMeasurement) : Prop :=
  exists aux, raw = json.Filled aux
              /\ parseDate (aux_Timestamp aux) = Ok (Timestamp m)
              /\ m = withTimestamp (aux_Alias aux) (Timestamp m).

(** The day after a day of the calendar. *)
Definition nextDay (y mo d : Z) : Z * Z * Z :=
  if d <? time.daysIn mo y then (y, mo, d + 1)
  else if mo <? 12 then (y, mo + 1, 1)
  else (y + 1, 1, 1).

(** A graph payload whose second historic entry has month 19. *)
Definition badHistory : list rawGlucoseMeasurement :=
  [reading "9/7/2025 5:46:03 PM" (f64 101) 3; reading "19/7/2025 5:51:03 PM" (f64 104) 3].

(** Ada's graph data, from a remote that answers every request with them. *)
Definition adaGraph : Runtime := constant (envelope (graphPayload ada (Some current) threeHistoric)).

Definition givenCredentials : CliCredentials :=
  {| UserId := "u-1"; CliToken := "t-1"; Expiry := time.Unix 1773417313 0 |}.

(** A payload that is the JSON text [null]. *)
Definition nullPayload : RawMessage :=
  {| asRedirecResponse := json.Null; asAuthResponse := json.Null;
     asConnections := json.Null; asGraphData := json.Null |}.

Definition answersNull : Runtime := constant (envelope nullPayload).

(** The remote answers the list with status 503. *)
Definition unavailable : Runtime :=
  constant (Ok {| StatusCode := 503; RespBody := json.Invalid "invalid character" |}).

(** * Properties *)

(** ** The base URL of a region *)

Lemma length_append (a b : string) :
  String.length (a ++ b) = (String.length a + String.length b)%nat.
Proof. induction a as [|c a IH]; simpl; [reflexivity | now rewrite IH]. Qed.

Lemma append_cancel_r (t a b : string) : a ++ t = b ++ t -> a = b.
Proof.
  revert b. induction a as [|c a IH]; intros [|d b] H; simpl in H.
  - reflexivity.
  - apply (f_equal String.length) in H. simpl in H. rewrite length_append in H. lia.
  - apply (f_equal String.length) in H. simpl in H. rewrite length_append in H. lia.
  - injection H as -> H. f_equal. now apply IH.
Qed.

Lemma getUrl_region (region : string) :
  region <> "" -> getUrl region = "https://api-" ++ region ++ ".libreview.io".
Proof.
  intros H. unfold getUrl. destruct (String.eqb_spec region ""); [contradiction | reflexivity].
Qed.

Lemma getUrl_injective (r1 r2 : string) : getUrl r1 = getUrl r2 -> r1 = r2.
Proof.
  unfold getUrl.
  destruct (String.eqb_spec r1 ""), (String.eqb_spec r2 ""); subst; intros H.
  - reflexivity.
  - simpl in H. discriminate H.
  - simpl in H. discriminate H.
  - simpl in H. injection H as H. now apply append_cancel_r in H.
Qed.

(** C4, as stated, fails at the region "de": the client resolves it to
    [https://api-de.libreview.io], with a hyphen after "api", and not to
    [https://api.de.libreview.io]. *)
Lemma getUrl_de_not_dotted :
  getUrl "de" = "https://api-de.libreview.io" /\ getUrl "de" <> getUrl_spec "de".
Proof. split; [reflexivity | discriminate]. Qed.

(** C4 (amended): for every nonempty region code the base host is
    [https://api-<region>.libreview.io]; with no region it is the bare
    [https://api.libreview.io]; the host is a function of the region code
    alone, and different region codes give different hosts. *)
Theorem getUrl_resolves (region : string) :
  region <> "" ->
  getUrl region = "https://api-" ++ region ++ ".libreview.io"
  /\ getUrl "" = "https://api.libreview.io"
  /\ (forall region', getUrl region' = getUrl region -> region' = region).
Proof.
  intros H. split; [now apply getUrl_region | split; [reflexivity |]].
  intros region'. apply getUrl_injective.
Qed.

Lemma getUrl_resolves_de :
  "de" <> ""
  /\ getUrl "de" = "https://api-" ++ "de" ++ ".libreview.io"
  /\ getUrl "" = "https://api.libreview.io"
  /\ (forall region', getUrl region' = getUrl "de" -> region' = "de").
Proof. split; [discriminate | apply (getUrl_resolves "de"); discriminate]. Defined.

(** ** Requests *)

Section Requests.

Variable rt : Runtime.

Lemma doRequest_answered fuel s method endpoint body req libreResp :
  answered rt s method endpoint body req libreResp ->
  doRequest rt (S fuel) s method endpoint body =
    if negb (Status libreResp =? 0) then
      match Error libreResp with
      | None => Some (Panic nilDeref, afterSend s req)
      | Some er =>
        Some (Err ("API error " ++ itoa (Status libreResp) ++ ": " ++ Message er), afterSend s req)
      end
    else
      match handleRedirect rt (client s) libreResp with
      | (Panic p, c2) => Some (Panic p, {| client := c2; sent := req :: sent s |})
      | (Err e, c2) =>
        Some (Err ("failed to handle redirect: " ++ e), {| client := c2; sent := req :: sent s |})
      | (Ok true, c2) =>
        doRequest rt fuel {| client := c2; sent := req :: sent s |} method endpoint (drained body)
      | (Ok false, c2) => Some (Ok libreResp, {| client := c2; sent := req :: sent s |})
      end.
Proof.
  intros (Hreq & resp & Hdo & Hcode & Hbody).
  simpl. rewrite Hreq, Hdo, Hcode, Hbody. reflexivity.
Qed.

(** A non-zero status with an error object: the request ends in the API
    error; the payload plays no part and the client is left as it was. *)
Lemma doRequest_api_error fuel s method endpoint body req libreResp er :
  answered rt s method endpoint body req libreResp ->
  Status libreResp <> 0 ->
  Error libreResp = Some er ->
  doRequest rt (S fuel) s method endpoint body =
    Some (Err ("API error " ++ itoa (Status libreResp) ++ ": " ++ Message er), afterSend s req).
Proof.
  intros Ha Hs He. rewrite (doRequest_answered _ _ _ _ _ _ _ Ha).
  apply Z.eqb_neq in Hs. rewrite Hs, He. reflexivity.
Qed.

(** C9: an envelope (status zero, the path on which redirects are looked
    at) whose payload signals a redirect with an empty region makes
    [handleRedirect] fail with "redirect requested but no region provided"
    and leave the base URL alone; [doRequest] returns that error, wrapped,
    after the one request it sent: no retry, and the envelope is not
    returned. *)
Theorem redirect_without_region_fails fuel s method endpoint body req libreResp :
  answered rt s method endpoint body req libreResp ->
  Status libreResp = 0 ->
  getPayload_RedirecResponse libreResp = Ok {| Redirect := true; Region := "" |} ->
  handleRedirect rt (client s) libreResp
    = (Err "redirect requested but no region provided", client s)
  /\ doRequest rt (S fuel) s method endpoint body
    = Some (Err "failed to handle redirect: redirect requested but no region provided",
            afterSend s req).
Proof.
  intros Ha Hs Hp.
  assert (Hh : handleRedirect rt (client s) libreResp
               = (Err "redirect requested but no region provided", client s)).
  { unfold handleRedirect. rewrite Hp. reflexivity. }
  split; [exact Hh |].
  rewrite (doRequest_answered _ _ _ _ _ _ _ Ha), Hs, Hh. reflexivity.
Qed.

End Requests.

Lemma redirect_without_region_fails_example :
  handleRedirect (constant (envelope (redirectTo ""))) freshClient
      {| Status := 0; Data := redirectTo ""; Ticket := zeroAuthTicket; Error := None |}
    = (Err "redirect requested but no region provided", freshClient)
  /\ doRequest (constant (envelope (redirectTo ""))) 5 (start freshClient) "GET" "llu/connections" None
    = Some (Err "failed to handle redirect: redirect requested but no region provided",
            {| client := freshClient;
               sent := [ {| Method := "GET";
                            Url := "https://api.libreview.io/llu/connections";
                            Header := fixedHeaders;
                            Body := "" |} ] |}).
Proof.
  apply (redirect_without_region_fails (constant (envelope (redirectTo ""))) 4 (start freshClient)
           "GET" "llu/connections" None).
  - split; [reflexivity |]. eexists. repeat split; reflexivity.
  - reflexivity.
  - reflexivity.
Defined.

(** ** Remote rejections and panics *)

Example doRequest_rejected_with_error :
  doRequest (constant rejectedWithError) 1 (start freshClient) "GET" "llu/connections" None
  = Some (Err "API error 2: notAuthenticated",
          {| client := freshClient;
             sent := [ {| Method := "GET"; Url := "https://api.libreview.io/llu/connections";
                          Header := fixedHeaders; Body := "" |} ] |}).
Proof. reflexivity. Qed.

(** C3 (the code departs from it): on an envelope with a non-zero status
    and no error object, [doRequest] does not return an error: reading
    [libreResp.Error.Message] through the nil pointer panics. *)
Theorem doRequest_status_without_error_panics :
  doRequest (constant rejectedWithoutError) 1 (start freshClient) "GET" "llu/connections" None
  = Some (Panic nilDeref,
          {| client := freshClient;
             sent := [ {| Method := "GET"; Url := "https://api.libreview.io/llu/connections";
                          Header := fixedHeaders; Body := "" |} ] |}).
Proof. reflexivity. Qed.

(** C5 (the code departs from it): [GetLatestReading] on a graph payload
    whose connection has no current reading does not return an error: it
    dereferences the nil [GlucoseMeasurement] and panics.  So does
    [doRequest] on an envelope with a non-zero status and no error
    object.  Nothing in the client recovers from either panic. *)
Theorem GetLatestReading_without_reading_panics :
  (exists s,
     GetLatestReading (constant (envelope (graphPayload idleConnection None twoHistoric))) 1
       (start freshClient) "p-1" = Some (Panic nilDeref, s))
  /\ (exists s,
     doRequest (constant rejectedWithoutError) 1 (start freshClient) "GET" "llu/connections" None
       = Some (Panic nilDeref, s)).
Proof. split; eexists; reflexivity. Qed.

(** ** Credentials *)

Section Credentials.

Variable rt : Runtime.

Lemma handleRedirect_keeps_creds c resp r c' :
  handleRedirect rt c resp = (r, c') ->
  creds c' = creds c /\ user c' = user c /\ password c' = password c.
Proof.
  unfold handleRedirect. intros H.
  destruct (getPayload_RedirecResponse resp) as [red | e | p];
    [| now inversion H | now inversion H].
  destruct (Redirect red); simpl in H; [| now inversion H].
  destruct (String.eqb (Region red) ""); [now inversion H |].
  destruct (urlParse rt (getUrl (Region red))); inversion H; subst; auto.
Qed.

(** [doRequest] never touches the credentials. *)
Lemma doRequest_keeps_creds fuel : forall s method endpoint body r s',
  doRequest rt fuel s method endpoint body = Some (r, s') ->
  creds (client s') = creds (client s).
Proof.
  induction fuel as [|fuel IH]; intros s method endpoint body r s' H; simpl in H;
    [discriminate |].
  destruct (prepareRequest rt (client s) method endpoint body) as [req | e | p];
    [| now inversion H | now inversion H].
  destruct (httpDo rt (sent s) req) as [resp | e | p];
    [| now inversion H | now inversion H].
  destruct (negb (StatusCode resp =? 200)); [now inversion H |].
  destruct (unmarshalLibreLinkResp (RespBody resp)) as [libreResp | e | p];
    [| now inversion H | now inversion H].
  destruct (negb (Status libreResp =? 0)).
  { destruct (Error libreResp); now inversion H. }
  simpl in H.
  destruct (handleRedirect rt (client s) libreResp) as [o c2] eqn:Hh.
  apply handleRedirect_keeps_creds in Hh. destruct Hh as (Hc & _).
  destruct o as [[|] | e | p].
  - apply IH in H. simpl in H. congruence.
  - inversion H; subst. exact Hc.
  - inversion H; subst. exact Hc.
  - inversion H; subst. exact Hc.
Qed.

(** C10: a call of [Authenticate] that does not succeed (it returns an
    error, or panics) leaves the credentials of the client as they were,
    held or not, and with them the answer of [IsAuthenticated]; a call
    that succeeds stores new credentials. *)
Theorem Authenticate_failure_keeps_creds fuel s r s' :
  Authenticate rt fuel s = Some (r, s') ->
  match r with
  | Ok _ => exists k, creds (client s') = Some k
  | Err _ | Panic _ =>
    creds (client s') = creds (client s)
    /\ IsAuthenticated (client s') = IsAuthenticated (client s)
  end.
Proof.
  unfold Authenticate, IsAuthenticated. intros H.
  destruct (jsonMarshal rt _) as [reqBody | e | p];
    [| inversion H; subst; auto | inversion H; subst; auto].
  destruct (doRequest rt fuel s "POST" "llu/auth/login" (Some reqBody))
    as [[[resp | e | p] s1] |] eqn:Hd; [| | | discriminate].
  - apply doRequest_keeps_creds in Hd.
    destruct (unmarshal decodeAuthResponse zeroAuthResponse (asAuthResponse (Data resp)));
      inversion H; subst; simpl.
    + eexists; reflexivity.
    + rewrite Hd; auto.
    + rewrite Hd; auto.
  - apply doRequest_keeps_creds in Hd. inversion H; subst. rewrite Hd; auto.
  - apply doRequest_keeps_creds in Hd. inversion H; subst. rewrite Hd; auto.
Qed.

End Credentials.

(** The remote rejects the login of a client that holds credentials: the
    credentials stay. *)
Lemma Authenticate_failure_keeps_creds_example :
  creds authenticatedClient = creds (client (start authenticatedClient))
  /\ IsAuthenticated authenticatedClient = IsAuthenticated (client (start authenticatedClient)).
Proof.
  exact (Authenticate_failure_keeps_creds (constant rejectedWithError) 1 (start authenticatedClient)
           (Err "API error 2: notAuthenticated")
           {| client := authenticatedClient;
              sent := [ {| Method := "POST"; Url := "https://api.libreview.io/llu/auth/login";
                           Header := fixedHeaders ++
                             [("account-id", "sha256(u0)"); ("Authorization", "Bearer t0")];
                           Body := "{" ++ quote ++ "email" ++ quote ++ ":" ++ quote
                                   ++ "ann@example.org" ++ quote ++ "," ++ quote ++ "password"
                                   ++ quote ++ ":" ++ quote ++ "secret" ++ quote ++ "}" |} ] |}
           eq_refl).
Defined.

(** ** The scrape *)

Section Scrape.

Variable rt : Runtime.








(** C7: a scrape by a client that holds no credentials, with a login that
    succeeds, one connection in the list, and a graph payload with a
    current reading and three historic entries, sends five metrics: the
    glucose level and the trend of the current reading, stamped with the
    time of that reading, and one historic level per entry, stamped with
    the time of the entry; all five carry the patient id and the first
    and last name joined by a space as label values. *)
Theorem Collect_login_one_connection fuel s ch s1 c s2 data s3 r h1 h2 h3 :
  IsAuthenticated (client s) = false ->
  Authenticate rt fuel s = Some (Ok tt, s1) ->
  GetConnections rt fuel s1 = Some (Ok [c], s2) ->
  GetGraphData rt fuel s2 (PatientId c) = Some (Ok data, s3) ->
  Connection_GlucoseMeasurement (GraphData_Connection data) = Some r ->
  GraphData_GraphData data = [h1; h2; h3] ->
  exists ms,
    Collect rt fuel s ch = Some (Ok tt, s3, (ch ++ ms)%list)
    /\ List.length ms = 5%nat
    /\ map desc ms =
         [glucoseLevelDesc; trendDesc; historicDataDesc; historicDataDesc; historicDataDesc]
    /\ map value ms =
         [Value r; float64_of_int (TrendArrow r); Value h1; Value h2; Value h3]
    /\ map timestamp ms =
         [Timestamp r; Timestamp r; Timestamp h1; Timestamp h2; Timestamp h3]
    /\ Forall (fun m => variableLabels (desc m) = ["patient_id"; "patient_name"]
                        /\ labelValues m = [PatientId c; FirstName c ++ " " ++ LastName c]) ms.
Proof.
  intros Ha Hl Hc Hg Hr Hh.
  exists (glucoseMetrics c r [h1; h2; h3]).
  split.
  - unfold Collect. rewrite Ha. simpl negb. cbv iota. rewrite Hl, Hc.
    simpl collectAll. unfold collectGlucose. rewrite Hg, Hr, Hh. reflexivity.
  - simpl. repeat split; auto. repeat constructor.
Qed.

(** C1 (amended): for a connection whose graph payload has no current
    reading, [collectGlucose] returns at once: it sends nothing for the
    connection, neither current value and trend nor any of the historic
    entries, however many there are; the scrape goes on with the next
    connection. *)
Theorem collectGlucose_without_reading_sends_nothing fuel s ch c data s1 rest :
  GetGraphData rt fuel s (PatientId c) = Some (Ok data, s1) ->
  Connection_GlucoseMeasurement (GraphData_Connection data) = None ->
  collectGlucose rt fuel s ch c = Some (Ok tt, s1, ch)
  /\ collectAll rt fuel s ch (c :: rest) = collectAll rt fuel s1 ch rest.
Proof.
  intros Hg Hn.
  assert (H : collectGlucose rt fuel s ch c = Some (Ok tt, s1, ch)).
  { unfold collectGlucose. rewrite Hg, Hn. reflexivity. }
  split; [exact H |]. simpl. rewrite H. reflexivity.
Qed.

End Scrape.

(** *** The scenarios of the scrape *)

Lemma Collect_login_one_connection_example :
  exists s3 ms,
    Collect loginThenAda 1 (start freshClient) [] = Some (Ok tt, s3, ms)
    /\ List.length ms = 5%nat
    /\ map timestamp ms =
         [time.Date 2025 9 7 18 1 3 0; time.Date 2025 9 7 18 1 3 0;
          time.Date 2025 9 7 17 46 3 0; time.Date 2025 9 7 17 51 3 0;
          time.Date 2025 9 7 17 56 3 0]
    /\ Forall (fun m => labelValues m = ["p-2"; "Ada Lovelace"]) ms.
Proof.
  edestruct (Collect_login_one_connection loginThenAda 1 (start freshClient) [])
    as (ms & HC & Hn & _ & _ & Ht & Hl).
  - reflexivity.
  - vm_compute; reflexivity.
  - vm_compute; reflexivity.
  - vm_compute; reflexivity.
  - vm_compute; reflexivity.
  - vm_compute; reflexivity.
  - eexists. exists ms. split; [exact HC |]. split; [exact Hn |]. split; [exact Ht |].
    eapply Forall_impl; [| exact Hl]. intros m [_ Hm]. exact Hm.
Defined.


(** C1, as stated, fails on a connection with no current reading and two
    historic entries: the two entries are fetched and decoded, and
    nothing is sent for the connection; the scrape returns no metric
    where the claim has two. *)
Lemma collectGlucose_drops_history :
  (exists s1 data,
      GetGraphData idleWithHistory 1 (start authenticatedClient) "p-1" = Some (Ok data, s1)
      /\ Connection_GlucoseMeasurement (GraphData_Connection data) = None
      /\ List.length (GraphData_GraphData data) = 2%nat
      /\ collectGlucose idleWithHistory 1 (start authenticatedClient) [] idleConnection
         = Some (Ok tt, s1, []))
  /\ (exists s2, Collect listThenIdle 1 (start authenticatedClient) [] = Some (Ok tt, s2, [])).
Proof.
  split.
  - do 2 eexists. split; [vm_compute; reflexivity |].
    split; [reflexivity |]. split; reflexivity.
  - eexists. vm_compute; reflexivity.
Qed.

Lemma collectGlucose_without_reading_example :
  exists s1,
    collectGlucose idleWithHistory 1 (start authenticatedClient) [] idleConnection
    = Some (Ok tt, s1, [])
    /\ collectAll idleWithHistory 1 (start authenticatedClient) [] [idleConnection; ada]
       = collectAll idleWithHistory 1 s1 [] [ada].
Proof.
  eexists.
  eapply (collectGlucose_without_reading_sends_nothing idleWithHistory 1
            (start authenticatedClient) [] idleConnection);
    vm_compute; reflexivity.
Defined.

(** ** Redirects *)

Section Redirects.

Variable rt : Runtime.

Lemma handleRedirect_region c libreResp region u :
  getPayload_RedirecResponse libreResp = Ok {| Redirect := true; Region := region |} ->
  region <> "" ->
  urlParse rt (getUrl region) = Ok u ->
  handleRedirect rt c libreResp = (Ok true, setBaseUrl c u).
Proof.
  intros Hp Hr Hu. unfold handleRedirect. rewrite Hp. simpl.
  destruct (String.eqb_spec region ""); [contradiction |]. rewrite Hu. reflexivity.
Qed.

Lemma doRequest_redirect_step fuel s method endpoint body req libreResp region u :
  answered rt s method endpoint body req libreResp ->
  Status libreResp = 0 ->
  getPayload_RedirecResponse libreResp = Ok {| Redirect := true; Region := region |} ->
  region <> "" ->
  urlParse rt (getUrl region) = Ok u ->
  doRequest rt (S fuel) s method endpoint body
  = doRequest rt fuel {| client := setBaseUrl (client s) u; sent := req :: sent s |}
      method endpoint (drained body).
Proof.
  intros Ha Hs Hp Hr Hu.
  rewrite (doRequest_answered _ _ _ _ _ _ _ _ Ha), Hs.
  rewrite (handleRedirect_region _ _ _ _ Hp Hr Hu). reflexivity.
Qed.

Lemma doRequest_never_returns region u :
  redirectsForever rt region u ->
  forall fuel s method endpoint body, doRequest rt fuel s method endpoint body = None.
Proof.
  intros (Hr & Hu & Hn & Hd). induction fuel as [|fuel IH]; intros s method endpoint body.
  - reflexivity.
  - pose (req := {| Method := method;
                    Url := urlJoinPath rt (baseUrl (client s)) endpoint;
                    Header := fixedHeaders ++
                      match creds (client s) with
                      | Some k => [("account-id", id k); ("Authorization", "Bearer " ++ Token (ticket k))]
                      | None => []
                      end;
                    Body := match body with Some b => b | None => "" end |}).
    destruct (Hd (sent s) req) as (resp & libreResp & H1 & H2 & H3 & H4 & H5).
    rewrite (doRequest_redirect_step fuel s method endpoint body req libreResp region u); auto.
    split.
    + unfold prepareRequest. rewrite Hn. reflexivity.
    + exists resp. auto.
Qed.

(** C2 (amended): when the envelope (status zero) signals a redirect with
    a nonempty region whose URL parses, the client takes
    [https://api-<region>.libreview.io] as its base URL and sends the
    request again: same method, same endpoint, same headers, against the
    new base (and the same request but for the URL when there is no
    body).  It does so after every redirect, at any depth: nothing caps
    the retries, and against a remote that redirects every request the
    call returns within no bound on the number of requests. *)
Theorem doRequest_follows_every_redirect fuel s method endpoint body req libreResp region u :
  answered rt s method endpoint body req libreResp ->
  Status libreResp = 0 ->
  getPayload_RedirecResponse libreResp = Ok {| Redirect := true; Region := region |} ->
  region <> "" ->
  urlParse rt (getUrl region) = Ok u ->
  doRequest rt (S fuel) s method endpoint body
    = doRequest rt fuel {| client := setBaseUrl (client s) u; sent := req :: sent s |}
        method endpoint (drained body)
  /\ (forall req',
        prepareRequest rt (setBaseUrl (client s) u) method endpoint (drained body) = Ok req' ->
        Method req' = Method req
        /\ Url req' = urlJoinPath rt u endpoint
        /\ Header req' = Header req
        /\ (body = None -> Body req' = Body req))
  /\ (redirectsForever rt region u ->
      forall n, doRequest rt n s method endpoint body = None).
Proof.
  intros Ha Hs Hp Hr Hu. split; [| split].
  - now apply (doRequest_redirect_step fuel s method endpoint body req libreResp region u).
  - destruct Ha as (Hreq & _). intros req'. unfold prepareRequest in *. simpl.
    destruct (newRequest rt method (urlJoinPath rt u endpoint)); [discriminate |].
    destruct (newRequest rt method (urlJoinPath rt (baseUrl (client s)) endpoint));
      [discriminate |].
    injection Hreq as <-. intros H. injection H as <-. simpl.
    repeat split; auto. intros ->. reflexivity.
  - intros Hf n. now apply (doRequest_never_returns region u).
Qed.

End Redirects.

Lemma alwaysRedirects_forever : redirectsForever alwaysRedirects "de" (getUrl "de").
Proof.
  split; [discriminate |]. split; [reflexivity |]. split; [reflexivity |].
  intros history req. do 2 eexists. split; [reflexivity |]. split; [reflexivity |].
  split; [reflexivity |]. split; reflexivity.
Qed.

(** C2, as stated, fails: after a second redirect in a row the client
    retries again (three requests for two redirects, not one retry), and
    against a remote that always redirects the request returns after no
    number of requests. *)
Lemma doRequest_retries_uncapped :
  (exists resp s',
      doRequest redirectsTwice 3 (start freshClient) "GET" "llu/connections" None
      = Some (Ok resp, s')
      /\ map Url (sent s')
         = ["https://api-fr.libreview.io/llu/connections";
            "https://api-de.libreview.io/llu/connections";
            "https://api.libreview.io/llu/connections"])
  /\ ~ (exists fuel r,
          doRequest alwaysRedirects fuel (start freshClient) "GET" "llu/connections" None
          = Some r).
Proof.
  split.
  - do 2 eexists. split; [vm_compute; reflexivity | reflexivity].
  - intros (fuel & r & H).
    rewrite (doRequest_never_returns alwaysRedirects "de" _ alwaysRedirects_forever) in H.
    discriminate H.
Qed.

Lemma doRequest_follows_every_redirect_example :
  doRequest alwaysRedirects 3 (start freshClient) "GET" "llu/connections" None
    = doRequest alwaysRedirects 2
        {| client := setBaseUrl freshClient "https://api-de.libreview.io";
           sent := [ {| Method := "GET"; Url := "https://api.libreview.io/llu/connections";
                        Header := fixedHeaders; Body := "" |} ] |}
        "GET" "llu/connections" None
  /\ (forall n,
        doRequest alwaysRedirects n (start freshClient) "GET" "llu/connections" None = None).
Proof.
  destruct (doRequest_follows_every_redirect alwaysRedirects 2 (start freshClient)
              "GET" "llu/connections" None
              {| Method := "GET"; Url := "https://api.libreview.io/llu/connections";
                 Header := fixedHeaders; Body := "" |}
              {| Status := 0; Data := redirectTo "de"; Ticket := zeroAuthTicket; Error := None |}
              "de" "https://api-de.libreview.io")
    as (Hstep & _ & Hloop).
  - split; [reflexivity |]. eexists. split; [reflexivity |]. split; reflexivity.
  - reflexivity.
  - reflexivity.
  - discriminate.
  - reflexivity.
  - split; [exact Hstep |]. apply Hloop. exact alwaysRedirects_forever.
Defined.

(** A login that is redirected: the retry sends the login request to the
    new base with an empty body, the reader of the body having been read
    to its end by the first request. *)
Example Authenticate_redirected_body :
  exists r s',
    Authenticate (scripted [envelope (redirectTo "de"); rejectedWithError]) 2 (start freshClient)
    = Some (r, s')
    /\ map (fun q => (Url q, Body q)) (sent s')
       = [("https://api-de.libreview.io/llu/auth/login", "");
          ("https://api.libreview.io/llu/auth/login",
           "{" ++ quote ++ "email" ++ quote ++ ":" ++ quote ++ "ann@example.org" ++ quote ++ ","
               ++ quote ++ "password" ++ quote ++ ":" ++ quote ++ "secret" ++ quote ++ "}")].
Proof. do 2 eexists. split; [vm_compute; reflexivity | reflexivity]. Qed.

(** ** Dates *)

Example formatDate_example : formatDate 2025 9 7 6 1 3 true = "9/7/2025 6:01:03 PM".
Proof. reflexivity. Qed.

Lemma digitChar_digit d :
  0 <= d <= 9 -> time.isDigitChar (digitChar d) = true /\ time.digitVal (digitChar d) = d.
Proof.
  intros H.
  assert (E : d = 0 \/ d = 1 \/ d = 2 \/ d = 3 \/ d = 4 \/ d = 5 \/ d = 6 \/ d = 7 \/ d = 8 \/ d = 9)
    by lia.
  repeat (destruct E as [-> | E]; [split; reflexivity |]). subst; split; reflexivity.
Qed.

Lemma isDigitChar_digitChar d : 0 <= d <= 9 -> time.isDigitChar (digitChar d) = true.
Proof. intros H. apply (digitChar_digit d H). Qed.

Lemma digitVal_digitChar d : 0 <= d <= 9 -> time.digitVal (digitChar d) = d.
Proof. intros H. apply (digitChar_digit d H). Qed.

Lemma digit_not_space c : time.isDigitChar c = true -> Ascii.eqb c " " = false.
Proof.
  intros H. destruct (Ascii.eqb_spec c " ") as [-> | _]; [discriminate H | reflexivity].
Qed.

Lemma div10_digit n : 0 <= n <= 99 -> 0 <= n / 10 <= 9 /\ 0 <= n mod 10 <= 9.
Proof.
  intros H. pose proof (Z.div_mod n 10). pose proof (Z.mod_pos_bound n 10). lia.
Qed.

(** [getnum] reads an unpadded number back when no digit follows it. *)
Lemma getnum_unpadded n c rest :
  0 <= n <= 99 -> time.isDigitChar c = false ->
  time.getnum (unpadded n ++ String c rest) false = Ok (n, String c rest).
Proof.
  intros Hn Hc. unfold unpadded. destruct (Z.ltb_spec n 10) as [Hlt | Hge]; simpl.
  - unfold time.getnum, time.isDigit, time.digitAt. simpl.
    rewrite isDigitChar_digitChar, Hc, digitVal_digitChar by lia. reflexivity.
  - destruct (div10_digit n Hn) as [Hq Hr].
    unfold time.getnum, time.isDigit, time.digitAt. simpl.
    rewrite !isDigitChar_digitChar, !digitVal_digitChar by lia. simpl.
    f_equal. f_equal. pose proof (Z.div_mod n 10). lia.
Qed.

Lemma getnum_twoDigit n rest :
  0 <= n <= 99 -> time.getnum (twoDigit n ++ rest) true = Ok (n, rest).
Proof.
  intros Hn. destruct (div10_digit n Hn) as [Hq Hr].
  unfold twoDigit, time.getnum, time.isDigit, time.digitAt. simpl.
  rewrite !isDigitChar_digitChar, !digitVal_digitChar by lia. simpl.
  f_equal. f_equal. pose proof (Z.div_mod n 10). lia.
Qed.

Lemma year_digits y :
  0 <= y <= 9999 ->
  0 <= y / 1000 <= 9 /\ 0 <= y / 100 mod 10 <= 9 /\ 0 <= y / 10 mod 10 <= 9 /\ 0 <= y mod 10 <= 9
  /\ y = ((y / 1000 * 10 + y / 100 mod 10) * 10 + y / 10 mod 10) * 10 + y mod 10.
Proof.
  intros H.
  pose proof (Z.div_mod y 1000). pose proof (Z.mod_pos_bound y 1000).
  pose proof (Z.div_mod y 100). pose proof (Z.mod_pos_bound y 100).
  pose proof (Z.div_mod y 10). pose proof (Z.mod_pos_bound y 10).
  pose proof (Z.div_mod (y / 100) 10). pose proof (Z.mod_pos_bound (y / 100) 10).
  pose proof (Z.div_mod (y / 10) 10). pose proof (Z.mod_pos_bound (y / 10) 10).
  lia.
Qed.

(** The case [stdLongYear] reads a four-digit year back. *)
Lemma parseStd_fourDigit y rest f :
  0 <= y <= 9999 ->
  time.parseStd time.stdLongYear (fourDigit y ++ rest) f
  = Ok (rest, time.mkFields y (time.month f) (time.day f) (time.hour f) (time.min f)
                (time.sec f) (time.nsec f) (time.pmSet f) (time.amSet f)).
Proof.
  intros Hy. destruct (year_digits y Hy) as (H1 & H2 & H3 & H4 & E).
  change (fourDigit y ++ rest)
    with (String (digitChar (y / 1000)) (String (digitChar (y / 100 mod 10))
           (String (digitChar (y / 10 mod 10)) (String (digitChar (y mod 10)) rest)))).
  unfold time.parseStd. simpl String.length.
  replace ((S (S (S (S (String.length rest)))) <? 4)%nat) with false
    by (symmetry; apply Nat.ltb_ge; lia).
  unfold time.isDigit. simpl String.get. cbv iota beta.
  rewrite isDigitChar_digitChar by lia.
  simpl negb. simpl orb. cbv iota.
  simpl time.take. simpl time.drop.
  unfold time.atoi.
  assert (Hm : Ascii.eqb (digitChar (y / 1000)) "-" = false).
  { destruct (Ascii.eqb_spec (digitChar (y / 1000)) "-") as [Hc | _]; [| reflexivity].
    pose proof (isDigitChar_digitChar (y / 1000) H1) as Hd. rewrite Hc in Hd. discriminate Hd. }
  assert (Hp : Ascii.eqb (digitChar (y / 1000)) "+" = false).
  { destruct (Ascii.eqb_spec (digitChar (y / 1000)) "+") as [Hc | _]; [| reflexivity].
    pose proof (isDigitChar_digitChar (y / 1000) H1) as Hd. rewrite Hc in Hd. discriminate Hd. }
  rewrite Hm, Hp.
  unfold time.leadingInt.
  rewrite !isDigitChar_digitChar, !digitVal_digitChar by lia.
  simpl negb. cbv iota.
  repeat match goal with
         | |- context [?a <? ?b] =>
           replace (a <? b) with false by (symmetry; apply Z.ltb_ge; cbn; lia)
         end.
  simpl. f_equal. f_equal. f_equal. lia.
Qed.

Lemma parseStd_month n c rest f :
  1 <= n <= 12 -> time.isDigitChar c = false ->
  time.parseStd time.stdNumMonth (unpadded n ++ String c rest) f
  = Ok (String c rest,
        time.mkFields (time.year f) n (time.day f) (time.hour f) (time.min f) (time.sec f)
          (time.nsec f) (time.pmSet f) (time.amSet f)).
Proof.
  intros Hn Hc. unfold time.parseStd. rewrite getnum_unpadded by (auto; lia).
  cbn [bind]. cbv beta iota.
  replace (n <=? 0) with false by (symmetry; apply Z.leb_gt; lia).
  replace (12 <? n) with false by (symmetry; apply Z.ltb_ge; lia).
  reflexivity.
Qed.

Lemma parseStd_day n c rest f :
  0 <= n <= 99 -> time.isDigitChar c = false ->
  time.parseStd time.stdDay (unpadded n ++ String c rest) f
  = Ok (String c rest,
        time.mkFields (time.year f) (time.month f) n (time.hour f) (time.min f) (time.sec f)
          (time.nsec f) (time.pmSet f) (time.amSet f)).
Proof.
  intros Hn Hc. unfold time.parseStd. rewrite getnum_unpadded by auto. reflexivity.
Qed.

Lemma parseStd_hour n c rest f :
  0 <= n <= 12 -> time.isDigitChar c = false ->
  time.parseStd time.stdHour12 (unpadded n ++ String c rest) f
  = Ok (String c rest,
        time.mkFields (time.year f) (time.month f) (time.day f) n (time.min f) (time.sec f)
          (time.nsec f) (time.pmSet f) (time.amSet f)).
Proof.
  intros Hn Hc. unfold time.parseStd. rewrite getnum_unpadded by (auto; lia).
  cbn [bind]. cbv beta iota.
  replace (n <? 0) with false by (symmetry; apply Z.ltb_ge; lia).
  replace (12 <? n) with false by (symmetry; apply Z.ltb_ge; lia).
  reflexivity.
Qed.

Lemma parseStd_minute n rest f :
  0 <= n <= 59 ->
  time.parseStd time.stdZeroMinute (twoDigit n ++ rest) f
  = Ok (rest,
        time.mkFields (time.year f) (time.month f) (time.day f) (time.hour f) n (time.sec f)
          (time.nsec f) (time.pmSet f) (time.amSet f)).
Proof.
  intros Hn. unfold time.parseStd. rewrite getnum_twoDigit by lia.
  cbn [bind]. cbv beta iota.
  replace (n <? 0) with false by (symmetry; apply Z.ltb_ge; lia).
  replace (60 <=? n) with false by (symmetry; apply Z.leb_gt; lia).
  reflexivity.
Qed.

(** Seconds followed by a space: no fractional second. *)
Lemma parseStd_second n rest f :
  0 <= n <= 59 ->
  time.parseStd time.stdZeroSecond (twoDigit n ++ String " " rest) f
  = Ok (String " " rest,
        time.mkFields (time.year f) (time.month f) (time.day f) (time.hour f) (time.min f) n
          (time.nsec f) (time.pmSet f) (time.amSet f)).
Proof.
  intros Hn. unfold time.parseStd. rewrite getnum_twoDigit by lia.
  cbn [bind]. cbv beta iota.
  replace (n <? 0) with false by (symmetry; apply Z.ltb_ge; lia).
  replace (60 <=? n) with false by (symmetry; apply Z.leb_gt; lia).
  simpl. rewrite andb_false_r. reflexivity.
Qed.

Lemma skip_space_then c rest :
  Ascii.eqb c " " = false ->
  time.skip (String " " (String c rest)) " " = Ok (String c rest).
Proof. intros Hc. unfold time.skip. simpl. rewrite Hc. reflexivity. Qed.

Lemma unpadded_head n :
  0 <= n <= 99 -> exists c t, unpadded n = String c t /\ time.isDigitChar c = true.
Proof.
  intros Hn. destruct (div10_digit n Hn). unfold unpadded.
  destruct (n <? 10) eqn:E; eexists; eexists; (split; [reflexivity |]);
    apply isDigitChar_digitChar; [apply Z.ltb_lt in E |]; lia.
Qed.

Lemma formatDate_spelled y mo d h mi se pm :
  formatDate y mo d h mi se pm
  = unpadded mo ++ String "/" (unpadded d ++ String "/" (fourDigit y ++ String " "
      (unpadded h ++ String ":" (twoDigit mi ++ String ":" (twoDigit se ++ String " "
         (if pm then "PM" else "AM")))))).
Proof. reflexivity. Qed.

Lemma skip_slash v : time.skip (String "/" v) "/" = Ok v.
Proof. reflexivity. Qed.

Lemma skip_colon v : time.skip (String ":" v) ":" = Ok v.
Proof. reflexivity. Qed.

Lemma skip_nothing v : time.skip v "" = Ok v.
Proof. reflexivity. Qed.

(** A well-formed date string parses to the instant it denotes. *)
Lemma parseDate_formatDate y mo d h mi se pm :
  0 <= y <= 9999 -> 1 <= mo <= 12 -> 1 <= d <= time.daysIn mo y ->
  1 <= h <= 12 -> 0 <= mi <= 59 -> 0 <= se <= 59 ->
  parseDate (formatDate y mo d h mi se pm) = Ok (time.Date y mo d (hour24 h pm) mi se 0).
Proof.
  intros Hy Hmo Hd Hh Hmi Hse.
  assert (Hd99 : 0 <= d <= 99).
  { unfold time.daysIn in Hd.
    destruct (mo =? 2); [destruct (time.isLeap y) |
      destruct ((mo =? 4) || (mo =? 6) || (mo =? 9) || (mo =? 11))]; lia. }
  destruct (unpadded_head h ltac:(lia)) as (hc & ht & Eh & Hhc).
  rewrite formatDate_spelled.
  unfold parseDate, time.Parse, DateFormat.
  cbn [time.chunks time.trailer time.parseLoop].
  rewrite skip_nothing. cbn [bind]. cbv beta.
  rewrite parseStd_month by (auto; lia). cbn [bind]. cbv beta iota.
  rewrite skip_slash. cbn [bind]. cbv beta.
  rewrite parseStd_day by auto. cbn [bind]. cbv beta iota.
  rewrite skip_slash. cbn [bind]. cbv beta.
  rewrite parseStd_fourDigit by lia. cbn [bind]. cbv beta iota.
  rewrite Eh. change (String hc ht ++ ?x) with (String hc (ht ++ x)).
  rewrite skip_space_then by (now apply digit_not_space).
  change (String hc (ht ++ ?x)) with (String hc ht ++ x). rewrite <- Eh.
  cbn [bind]. cbv beta.
  rewrite parseStd_hour by (auto; lia). cbn [bind]. cbv beta iota.
  rewrite skip_colon. cbn [bind]. cbv beta.
  rewrite parseStd_minute by lia. cbn [bind]. cbv beta iota.
  rewrite skip_colon. cbn [bind]. cbv beta.
  rewrite parseStd_second by lia. cbn [bind]. cbv beta iota.
  assert (Hlo : (d <? 1) = false) by (apply Z.ltb_ge; lia).
  assert (Hhi : (time.daysIn mo y <? d) = false) by (apply Z.ltb_ge; lia).
  destruct pm; simpl; rewrite Hlo, Hhi; simpl; unfold hour24; simpl.
  - destruct (h <? 12); reflexivity.
  - destruct (h =? 12); reflexivity.
Qed.

(** *** What [parseDate] takes is of the tolerated form *)

Lemma bind_Ok {A B} (m : outcome A) (k : A -> outcome B) b :
  bind m k = Ok b -> exists a, m = Ok a /\ k a = Ok b.
Proof. destruct m; simpl; intros H; [eauto | discriminate | discriminate]. Qed.

Lemma take_drop n : forall s, s = time.take n s ++ time.drop n s.
Proof.
  induction n as [|n IH]; intros [|c s]; simpl; try reflexivity. now rewrite <- IH.
Qed.

Lemma length_take n : forall s, (n <= String.length s)%nat -> String.length (time.take n s) = n.
Proof.
  induction n as [|n IH]; intros [|c s]; simpl; intros H; try reflexivity; try lia.
  rewrite IH; lia.
Qed.

Lemma getnum_Ok s fixed n rest :
  time.getnum s fixed = Ok (n, rest) ->
  exists t, s = t ++ rest /\ allDigits t = true /\ n = numeral t
            /\ ((if fixed then 2 else 1) <= String.length t <= 2)%nat.
Proof.
  unfold time.getnum, time.isDigit, time.digitAt.
  destruct s as [|a [|b r]]; simpl.
  - discriminate.
  - destruct (time.isDigitChar a) eqn:Ha; simpl; [| discriminate].
    destruct fixed; [discriminate |]. intros H. injection H as <- <-.
    exists (String a ""). simpl. rewrite Ha. repeat split; auto.
  - destruct (time.isDigitChar a) eqn:Ha; simpl; [| discriminate].
    destruct (time.isDigitChar b) eqn:Hb; simpl.
    + intros H. injection H as <- <-. exists (String a (String b "")). simpl.
      rewrite Ha, Hb. repeat split; auto. destruct fixed; lia.
    + destruct fixed; [discriminate |]. intros H. injection H as <- <-.
      exists (String a ""). simpl. rewrite Ha. repeat split; auto.
Qed.

Lemma leadingInt_Ok : forall t x q,
  time.leadingInt t x = Ok (q, "") -> allDigits t = true /\ q = numeralFrom t x.
Proof.
  induction t as [|c t IH]; intros x q; simpl.
  - intros H. injection H as <-. auto.
  - destruct (time.isDigitChar c) eqn:Hc; simpl; [| discriminate].
    match goal with |- context [if ?b then _ else _] => destruct b end; [discriminate |].
    match goal with |- context [if ?b then _ else _] => destruct b end; [discriminate |].
    intros H. apply IH in H. exact H.
Qed.

(** [atoi] of a string that starts with a digit. *)
Lemma atoi_Ok c t q :
  time.isDigitChar c = true ->
  time.atoi (String c t) = Ok q -> allDigits (String c t) = true /\ q = numeral (String c t).
Proof.
  intros Hc. unfold time.atoi.
  destruct (Ascii.eqb_spec c "-") as [-> | _]; [discriminate Hc |].
  destruct (Ascii.eqb_spec c "+") as [-> | _]; [discriminate Hc |].
  destruct (time.leadingInt (String c t) 0) as [[q' [|]] | |] eqn:E; try discriminate.
  intros H. injection H as <-. apply leadingInt_Ok in E. exact E.
Qed.

Lemma skip_char_Ok c v r :
  Ascii.eqb c " " = false ->
  time.skip v (String c "") = Ok r -> v = String c r.
Proof.
  intros Hc. unfold time.skip. simpl. rewrite Hc. destruct v as [|a v]; [discriminate |].
  destruct (Ascii.eqb_spec a c) as [-> | _]; [| discriminate].
  intros H. injection H as ->. reflexivity.
Qed.

Lemma cutspace_split v : exists g, v = g ++ time.cutspace v /\ allSpaces g = true.
Proof.
  induction v as [|c v (g & E & Hg)]; simpl.
  - exists "". auto.
  - destruct (Ascii.eqb c " ") eqn:Hc.
    + exists (String c g). simpl. rewrite Hc, Hg. split; [now rewrite <- E | reflexivity].
    + exists "". auto.
Qed.

(** The space of the layout: a run of spaces, or the end of the value. *)
Lemma skip_space_Ok v r :
  time.skip v " " = Ok r ->
  (v = "" /\ r = "") \/ (exists g, v = g ++ r /\ spaceRun g).
Proof.
  unfold time.skip. simpl. destruct v as [|a v]; simpl.
  - intros H. injection H as <-. auto.
  - destruct (Ascii.eqb a " ") eqn:Ha; simpl; [| discriminate].
    intros H. injection H as <-. right.
    destruct (cutspace_split v) as (g & E & Hg).
    exists (String a g). split; [simpl; now rewrite <- E |].
    split; [discriminate | simpl; now rewrite Ha, Hg].
Qed.

Lemma get_append pre : forall post,
  String.get (String.length pre) (pre ++ post) = String.get 0 post.
Proof. induction pre as [|c pre IH]; intros post; simpl; [reflexivity | apply IH]. Qed.

Lemma append_assoc (a b c : string) : (a ++ b) ++ c = a ++ b ++ c.
Proof. induction a as [|x a IH]; simpl; [reflexivity | now rewrite IH]. Qed.

(** The run of digits that [digitRun] walks over. *)
Lemma digitRun_run fuel : forall pre post,
  exists ds post',
    post = ds ++ post' /\ allDigits ds = true
    /\ time.digitRun (pre ++ post) (String.length pre) fuel
       = (String.length pre + String.length ds)%nat.
Proof.
  induction fuel as [|fuel IH]; intros pre post; simpl.
  - exists "", post. simpl. repeat split; auto.
  - unfold time.isDigit. rewrite get_append.
    destruct post as [|c post]; simpl.
    + exists "", "". simpl. repeat split; auto.
    + destruct (time.isDigitChar c) eqn:Hc.
      * destruct (IH (pre ++ String c "") post) as (ds & post' & E & Hd & Hn).
        exists (String c ds), post'. simpl. rewrite Hc, Hd, <- E.
        repeat split; auto.
        rewrite append_assoc in Hn. simpl in Hn.
        rewrite length_append in Hn. simpl in Hn.
        replace (S (String.length pre)) with (String.length pre + 1)%nat by lia.
        rewrite Hn. lia.
      * exists "", (String c post). simpl. repeat split; auto.
Qed.

Lemma take_append pre post : time.take (String.length pre) (pre ++ post) = pre.
Proof. induction pre as [|c pre IH]; simpl; [now destruct post | now rewrite IH]. Qed.

Lemma drop_append pre post : time.drop (String.length pre) (pre ++ post) = post.
Proof. induction pre as [|c pre IH]; simpl; [now destruct post | exact IH]. Qed.

Lemma take_take n : forall m s, (n <= m)%nat -> time.take n (time.take m s) = time.take n s.
Proof.
  induction n as [|n IH]; intros [|m] [|c s] H; simpl; try reflexivity; try lia.
  rewrite IH by lia. reflexivity.
Qed.

Lemma take_all n : forall s, (String.length s <= n)%nat -> time.take n s = s.
Proof.
  induction n as [|n IH]; intros [|c s] H; simpl in *; try reflexivity; try lia.
  rewrite IH by lia. reflexivity.
Qed.

Lemma allDigits_take n : forall s, allDigits s = true -> allDigits (time.take n s) = true.
Proof.
  induction n as [|n IH]; intros [|c s]; simpl; auto.
  intros H. apply andb_true_iff in H. destruct H as [-> H]. simpl. auto.
Qed.

Lemma parseStd_month_Ok value f rest f' :
  time.parseStd time.stdNumMonth value f = Ok (rest, f') ->
  exists t, value = t ++ rest /\ digitsOfLength 1 2 t /\ 1 <= numeral t <= 12
            /\ f' = setMonth f (numeral t).
Proof.
  unfold time.parseStd. intros H. apply bind_Ok in H. destruct H as ([m v] & Hg & H).
  apply getnum_Ok in Hg. destruct Hg as (t & E & Hd & -> & Hl).
  destruct (Z.leb_spec (numeral t) 0); simpl in H; [discriminate |].
  destruct (Z.ltb_spec 12 (numeral t)); simpl in H; [discriminate |].
  injection H as <- <-. exists t. repeat split; auto; lia.
Qed.

Lemma parseStd_day_Ok value f rest f' :
  time.parseStd time.stdDay value f = Ok (rest, f') ->
  exists t, value = t ++ rest /\ digitsOfLength 1 2 t /\ f' = setDay f (numeral t).
Proof.
  unfold time.parseStd. intros H. apply bind_Ok in H. destruct H as ([m v] & Hg & H).
  apply getnum_Ok in Hg. destruct Hg as (t & E & Hd & -> & Hl).
  injection H as <- <-. exists t. repeat split; auto; lia.
Qed.

Lemma parseStd_hour_Ok value f rest f' :
  time.parseStd time.stdHour12 value f = Ok (rest, f') ->
  exists t, value = t ++ rest /\ digitsOfLength 1 2 t /\ numeral t <= 12
            /\ f' = setHour f (numeral t).
Proof.
  unfold time.parseStd. intros H. apply bind_Ok in H. destruct H as ([m v] & Hg & H).
  apply getnum_Ok in Hg. destruct Hg as (t & E & Hd & -> & Hl).
  destruct (Z.ltb_spec (numeral t) 0); simpl in H; [discriminate |].
  destruct (Z.ltb_spec 12 (numeral t)); simpl in H; [discriminate |].
  injection H as <- <-. exists t. repeat split; auto; lia.
Qed.

Lemma parseStd_minute_Ok value f rest f' :
  time.parseStd time.stdZeroMinute value f = Ok (rest, f') ->
  exists t, value = t ++ rest /\ digitsOfLength 2 2 t /\ numeral t <= 59
            /\ f' = setMin f (numeral t).
Proof.
  unfold time.parseStd. intros H. apply bind_Ok in H. destruct H as ([m v] & Hg & H).
  apply getnum_Ok in Hg. destruct Hg as (t & E & Hd & -> & Hl).
  destruct (Z.ltb_spec (numeral t) 0); simpl in H; [discriminate |].
  destruct (Z.leb_spec 60 (numeral t)); simpl in H; [discriminate |].
  injection H as <- <-. exists t. repeat split; auto; lia.
Qed.

Lemma parseStd_year_Ok value f rest f' :
  time.parseStd time.stdLongYear value f = Ok (rest, f') ->
  exists t, value = t ++ rest /\ digitsOfLength 4 4 t /\ f' = setYear f (numeral t).
Proof.
  unfold time.parseStd.
  remember (time.take 4 value) as y4 eqn:Et. remember (time.drop 4 value) as r4 eqn:Er.
  destruct (Nat.ltb_spec (String.length value) 4) as [| Hlen]; simpl; [discriminate |].
  destruct (time.isDigit value 0) eqn:H0; simpl; [| discriminate].
  intros H. apply bind_Ok in H. destruct H as (y & Ha & H). injection H as <- <-.
  pose proof (length_take 4 value Hlen) as Hl4. rewrite <- Et in Hl4.
  destruct y4 as [|c t]; [discriminate |].
  assert (Hc : time.isDigitChar c = true).
  { destruct value as [|c' v]; [discriminate |]. simpl in Et. injection Et as -> _.
    exact H0. }
  apply (atoi_Ok c t y Hc) in Ha. destruct Ha as [Hd ->].
  exists (String c t). rewrite Et at 1. rewrite Er.
  split; [apply take_drop |]. split; [| reflexivity].
  split; [exact Hd | lia].
Qed.

Lemma take_append_le n : forall a b,
  (n <= String.length a)%nat -> time.take n (a ++ b) = time.take n a.
Proof.
  induction n as [|n IH]; intros a b H; [reflexivity |].
  destruct a as [|c a]; simpl in *; [lia |]. rewrite IH by lia. reflexivity.
Qed.

Lemma take_min9 D : time.take (Nat.min (String.length D) 9) D = time.take 9 D.
Proof.
  destruct (Nat.le_gt_cases (String.length D) 9) as [H | H].
  - rewrite Nat.min_l by exact H. rewrite !take_all by lia. reflexivity.
  - rewrite Nat.min_r by lia. reflexivity.
Qed.

(** [parseNanoseconds] on a separator, digits, and what follows them. *)
Lemma parseNanoseconds_Ok c0 c1 ds post ns :
  time.isDigitChar c1 = true -> allDigits ds = true ->
  time.parseNanoseconds (String c0 (String c1 (ds ++ post))) (2 + String.length ds) = Ok ns ->
  ns = nanoseconds (String c0 (String c1 ds)).
Proof.
  intros H1 Hd. unfold time.parseNanoseconds.
  destruct (time.commaOrPeriod c0); simpl negb; cbv iota; [| discriminate].
  set (n := Nat.min (2 + String.length ds) 10).
  assert (En : n = S (Nat.min (String.length (String c1 ds)) 9)) by (subst n; simpl; lia).
  rewrite En.
  change (time.take (S ?k) (String c0 ?x)) with (String c0 (time.take k x)).
  change (time.drop 1 (String c0 ?x)) with x.
  change (String c1 (ds ++ post)) with (String c1 ds ++ post).
  rewrite take_append_le by lia. rewrite take_min9.
  assert (E9 : nanoseconds (String c0 (String c1 ds))
               = numeral (time.take 9 (String c1 ds))
                 * 10 ^ Z.of_nat (10 - S (Nat.min (String.length (String c1 ds)) 9))).
  { unfold nanoseconds. f_equal. f_equal. f_equal. lia. }
  rewrite E9. clear E9.
  change (time.take 9 (String c1 ds)) with (String c1 (time.take 8 ds)).
  remember (time.take 8 ds) as d8. remember (String.length (String c1 ds)) as L.
  intros H. apply bind_Ok in H. destruct H as (q & Ha & H).
  apply atoi_Ok in Ha; [| exact H1]. destruct Ha as [_ Hq].
  destruct (q <? 0); [discriminate |]. rewrite <- Hq. congruence.
Qed.

Lemma parseStd_second_Ok value f rest f' :
  time.parseStd time.stdZeroSecond value f = Ok (rest, f') ->
  exists t fr, value = t ++ fr ++ rest /\ digitsOfLength 2 2 t /\ numeral t <= 59
               /\ fraction fr
               /\ f' = setSec f (numeral t)
                         (match fr with EmptyString => time.nsec f | _ => nanoseconds fr end).
Proof.
  unfold time.parseStd. intros H. apply bind_Ok in H. destruct H as ([m v] & Hg & H).
  apply getnum_Ok in Hg. destruct Hg as (t & E & Hd & -> & Hl).
  destruct (Z.ltb_spec (numeral t) 0); simpl orb in H; cbv iota in H; [discriminate |].
  destruct (Z.leb_spec 60 (numeral t)); simpl orb in H; cbv iota in H; [discriminate |].
  assert (Hplain : forall x, x = Ok (v, setSec f (numeral t) (time.nsec f)) -> x = Ok (rest, f') ->
            exists t0 fr, value = t0 ++ fr ++ rest /\ digitsOfLength 2 2 t0 /\ numeral t0 <= 59
              /\ fraction fr
              /\ f' = setSec f (numeral t0)
                        (match fr with EmptyString => time.nsec f | _ => nanoseconds fr end)).
  { intros x -> Hx. injection Hx as <- <-. exists t, "". simpl.
    repeat split; auto; try lia. now left. }
  destruct v as [|c0 [|c1 post]].
  - eapply Hplain; [| exact H]. reflexivity.
  - eapply Hplain; [| exact H]. reflexivity.
  - simpl String.length in H. simpl String.get in H. cbv iota in H.
    unfold time.isDigit in H. simpl String.get in H. cbv iota in H.
    change (2 <=? S (S (String.length post)))%nat with true in H. simpl andb at 1 in H.
    destruct (time.commaOrPeriod c0) eqn:Hc0;
      [| eapply Hplain; [| exact H]; reflexivity].
    destruct (time.isDigitChar c1) eqn:Hc1;
      [| eapply Hplain; [| exact H]; reflexivity].
    simpl andb in H. cbv iota in H.
    destruct (digitRun_run (S (S (String.length post))) (String c0 (String c1 "")) post)
      as (ds & post' & Ep & Hds & Hn).
    change (String c0 (String c1 "") ++ post) with (String c0 (String c1 post)) in Hn.
    change (String.length (String c0 (String c1 ""))) with 2%nat in Hn.
    rewrite Hn in H. clear Hn. subst post.
    apply bind_Ok in H. destruct H as (ns & Hns & H).
    apply parseNanoseconds_Ok in Hns; auto. subst ns.
    change (String c0 (String c1 (ds ++ post')))
      with (String c0 (String c1 ds) ++ post') in H.
    change (2 + String.length ds)%nat
      with (String.length (String c0 (String c1 ds))) in H.
    rewrite drop_append in H.
    remember (nanoseconds (String c0 (String c1 ds))) as NS eqn:ENS.
    injection H as <- <-.
    exists t, (String c0 (String c1 ds)).
    split; [exact E |]. split; [split; [auto | lia] |]. split; [lia |].
    split; [| rewrite ENS; reflexivity].
    right. exists c0, (String c1 ds). simpl. rewrite Hc1, Hds.
    repeat split; auto. discriminate.
Qed.

Lemma parseStd_pm_Ok value f rest f' :
  time.parseStd time.stdPM value f = Ok (rest, f') ->
  exists t, value = t ++ rest /\ (t = "AM" \/ t = "PM")
    /\ f' = time.mkFields (time.year f) (time.month f) (time.day f) (time.hour f) (time.min f)
              (time.sec f) (time.nsec f)
              (if String.eqb t "PM" then true else time.pmSet f)
              (if String.eqb t "PM" then time.amSet f else true).
Proof.
  unfold time.parseStd.
  remember (time.take 2 value) as p eqn:Ep. remember (time.drop 2 value) as r eqn:Er.
  destruct (String.length value <? 2)%nat; [discriminate |].
  pose proof (take_drop 2 value) as E. rewrite <- Ep, <- Er in E.
  destruct (String.eqb_spec p "PM") as [-> | _].
  - intros H. injection H as <- <-. exists "PM". auto.
  - destruct (String.eqb_spec p "AM") as [-> | _]; [| discriminate].
    intros H. injection H as <- <-. exists "AM". auto.
Qed.

Lemma append_empty_r (a : string) : a ++ "" = a.
Proof. induction a as [|c a IH]; simpl; [reflexivity | now rewrite IH]. Qed.

(** Every string [parseDate] takes is of the tolerated form, and the
    instant is the one its pieces spell. *)
Lemma parseDate_Ok s t :
  parseDate s = Ok t -> exists p, s = spell p /\ tolerated p /\ t = instantOf p.
Proof.
  unfold parseDate, time.Parse, DateFormat. cbn [time.chunks time.trailer time.parseLoop].
  intros H. apply bind_Ok in H. destruct H as (f & HL & H).
  apply bind_Ok in HL. destruct HL as (v0 & Hs0 & HL). rewrite skip_nothing in Hs0.
  injection Hs0 as <-.
  apply bind_Ok in HL. destruct HL as ([v1 f1] & Hmo & HL).
  apply parseStd_month_Ok in Hmo. destruct Hmo as (tM & -> & HMd & HMr & ->).
  apply bind_Ok in HL. destruct HL as (v2 & Hs1 & HL).
  apply skip_char_Ok in Hs1; [| reflexivity]. subst v1.
  apply bind_Ok in HL. destruct HL as ([v3 f3] & Hda & HL).
  apply parseStd_day_Ok in Hda. destruct Hda as (tD & -> & HDd & ->).
  apply bind_Ok in HL. destruct HL as (v4 & Hs2 & HL).
  apply skip_char_Ok in Hs2; [| reflexivity]. subst v3.
  apply bind_Ok in HL. destruct HL as ([v5 f5] & Hye & HL).
  apply parseStd_year_Ok in Hye. destruct Hye as (tY & -> & HYd & ->).
  apply bind_Ok in HL. destruct HL as (v6 & Hs3 & HL).
  apply bind_Ok in HL. destruct HL as ([v7 f7] & Hho & HL).
  apply parseStd_hour_Ok in Hho. destruct Hho as (tH & -> & HHd & HHr & ->).
  apply skip_space_Ok in Hs3.
  destruct Hs3 as [[_ Hemp] | (g1 & -> & Hg1)].
  { destruct HHd as [_ Hlen]. destruct tH; [simpl in Hlen; lia | discriminate Hemp]. }
  apply bind_Ok in HL. destruct HL as (v8 & Hs4 & HL).
  apply skip_char_Ok in Hs4; [| reflexivity]. subst v7.
  apply bind_Ok in HL. destruct HL as ([v9 f9] & Hmi & HL).
  apply parseStd_minute_Ok in Hmi. destruct Hmi as (tMi & -> & HMid & HMir & ->).
  apply bind_Ok in HL. destruct HL as (v10 & Hs5 & HL).
  apply skip_char_Ok in Hs5; [| reflexivity]. subst v9.
  apply bind_Ok in HL. destruct HL as ([v11 f11] & Hse & HL).
  apply parseStd_second_Ok in Hse. destruct Hse as (tS & fr & -> & HSd & HSr & Hfr & ->).
  apply bind_Ok in HL. destruct HL as (v12 & Hs6 & HL).
  apply bind_Ok in HL. destruct HL as ([v13 f13] & Hpm & HL).
  apply parseStd_pm_Ok in Hpm. destruct Hpm as (ap & -> & Hap & ->).
  apply skip_space_Ok in Hs6.
  destruct Hs6 as [[_ Hemp] | (g2 & -> & Hg2)].
  { destruct Hap as [-> | ->]; discriminate Hemp. }
  apply bind_Ok in HL. destruct HL as (v14 & Hs7 & HL). rewrite skip_nothing in Hs7.
  injection Hs7 as <-.
  destruct v13 as [|c v13]; [| discriminate HL]. injection HL as <-.
  cbn [time.pmSet time.amSet time.hour time.day time.month time.year time.min time.sec
       time.nsec setMonth setDay setYear setHour setMin setSec time.noFields] in H.
  destruct (Z.ltb_spec (numeral tD) 1) as [| Hd1]; simpl orb in H; cbv iota in H;
    [discriminate |].
  destruct (Z.ltb_spec (time.daysIn (numeral tM) (numeral tY)) (numeral tD)) as [| Hd2];
    [discriminate |].
  injection H as <-.
  exists {| tMonth := tM; tDay := tD; tYear := tY; tGap1 := g1; tHour := tH; tMinute := tMi;
            tSecond := tS; tFraction := fr; tGap2 := g2; tHalf := ap |}.
  split; [| split].
  - unfold spell. cbn [tMonth tDay tYear tGap1 tHour tMinute tSecond tFraction tGap2 tHalf].
    rewrite (append_empty_r ap). reflexivity.
  - unfold tolerated. cbn [tMonth tDay tYear tGap1 tHour tMinute tSecond tFraction tGap2 tHalf].
    repeat (split; [assumption || lia |]). lia.
  - unfold instantOf. cbn [tMonth tDay tYear tGap1 tHour tMinute tSecond tFraction tGap2 tHalf].
    unfold hour24.
    assert (Hns : match fr with EmptyString => 0 | String _ _ => nanoseconds fr end
                  = nanoseconds fr) by (destruct fr; reflexivity).
    rewrite Hns.
    destruct Hap as [-> | ->]; simpl; reflexivity.
Qed.

(** *** The tolerated strings parse *)

Lemma digitVal_range c : time.isDigitChar c = true -> 0 <= time.digitVal c <= 9.
Proof.
  unfold time.isDigitChar, time.digitVal. intros H. apply andb_true_iff in H.
  destruct H as [H1 H2]. apply Z.leb_le in H1, H2. lia.
Qed.

Lemma numeralFrom_bounds : forall t x,
  allDigits t = true -> 0 <= x ->
  x <= numeralFrom t x < (x + 1) * 10 ^ Z.of_nat (String.length t).
Proof.
  induction t as [|c t IH]; intros x Hd Hx; simpl String.length; simpl numeralFrom.
  - simpl. lia.
  - simpl in Hd. apply andb_true_iff in Hd. destruct Hd as [Hc Hd].
    pose proof (digitVal_range c Hc) as Hv.
    specialize (IH (x * 10 + time.digitVal c) Hd ltac:(lia)).
    rewrite Nat2Z.inj_succ, Z.pow_succ_r by lia.
    assert (0 < 10 ^ Z.of_nat (String.length t)) by (apply Z.pow_pos_nonneg; lia).
    nia.
Qed.

Lemma numeral_nonneg t : allDigits t = true -> 0 <= numeral t.
Proof. intros H. apply (numeralFrom_bounds t 0 H). lia. Qed.

Lemma leadingInt_digits : forall t x,
  allDigits t = true -> 0 <= x -> numeralFrom t x <= 2 ^ 63 / 10 ->
  time.leadingInt t x = Ok (numeralFrom t x, "").
Proof.
  induction t as [|c t IH]; intros x Hd Hx Hb; simpl time.leadingInt; simpl numeralFrom in *.
  - reflexivity.
  - simpl in Hd. apply andb_true_iff in Hd. destruct Hd as [Hc Hd].
    pose proof (digitVal_range c Hc) as Hv.
    pose proof (numeralFrom_bounds t (x * 10 + time.digitVal c) Hd ltac:(lia)) as Hn.
    rewrite Hc. simpl negb. cbv iota.
    assert (E63 : 2 ^ 63 / 10 = 922337203685477580) by reflexivity.
    assert (E63' : 2 ^ 63 = 9223372036854775808) by reflexivity.
    repeat match goal with
           | |- context [if ?a <? ?b then _ else _] =>
             destruct (Z.ltb_spec a b);
               [exfalso; change (Z.pow_pos 2 63) with (2 ^ 63) in *; lia |]
           end.
    apply IH; auto; lia.
Qed.

Lemma atoi_digits c t :
  allDigits (String c t) = true -> (String.length (String c t) <= 17)%nat ->
  time.atoi (String c t) = Ok (numeral (String c t)).
Proof.
  intros Hd Hl. assert (Hc : time.isDigitChar c = true)
    by (simpl in Hd; apply andb_true_iff in Hd; tauto).
  unfold time.atoi.
  destruct (Ascii.eqb_spec c "-") as [-> | _]; [discriminate Hc |].
  destruct (Ascii.eqb_spec c "+") as [-> | _]; [discriminate Hc |].
  rewrite leadingInt_digits; auto; [lia |].
  pose proof (numeralFrom_bounds (String c t) 0 Hd ltac:(lia)) as Hn.
  assert (10 ^ Z.of_nat (String.length (String c t)) <= 10 ^ 17)
    by (apply Z.pow_le_mono_r; lia).
  assert (E63 : 2 ^ 63 / 10 = 922337203685477580) by reflexivity.
  assert (E17 : 10 ^ 17 = 100000000000000000) by reflexivity.
  lia.
Qed.

Lemma getnum_digits t rest fixed :
  allDigits t = true -> (1 <= String.length t <= 2)%nat ->
  String.length t = 2%nat \/ (fixed = false /\ time.isDigit rest 0 = false) ->
  time.getnum (t ++ rest) fixed = Ok (numeral t, rest).
Proof.
  intros Hd Hl Hc. destruct t as [|a [|b [|c t]]]; simpl in Hl; try lia.
  - simpl in Hd. rewrite andb_true_r in Hd.
    destruct Hc as [Hc | [-> Hc]]; [simpl in Hc; lia |].
    unfold time.getnum, time.isDigit, time.digitAt in *. simpl.
    rewrite Hd. simpl.
    destruct (String.get 0 rest) as [r |] eqn:Er.
    + destruct rest as [|r' rest]; [discriminate Er |]. simpl in Er. injection Er as ->.
      simpl. rewrite Hc. reflexivity.
    + destruct rest as [|r' rest]; [| discriminate Er]. reflexivity.
  - simpl in Hd. rewrite andb_true_r in Hd. apply andb_true_iff in Hd. destruct Hd as [Ha Hb].
    unfold time.getnum, time.isDigit, time.digitAt. simpl. rewrite Ha, Hb. reflexivity.
Qed.

Lemma cutspace_run g rest :
  allSpaces g = true -> time.cutspace (g ++ rest) = time.cutspace rest.
Proof.
  induction g as [|c g IH]; simpl; intros H; [reflexivity |].
  apply andb_true_iff in H. destruct H as [-> H]. auto.
Qed.

Lemma skip_spaces g c rest :
  spaceRun g -> Ascii.eqb c " " = false ->
  time.skip (g ++ String c rest) " " = Ok (String c rest).
Proof.
  intros [Hne Hg] Hc. destruct g as [|a g]; [contradiction |].
  simpl in Hg. apply andb_true_iff in Hg. destruct Hg as [Ha Hg].
  unfold time.skip. simpl. rewrite Ha. simpl. rewrite cutspace_run by exact Hg.
  simpl. rewrite Hc. reflexivity.
Qed.

Lemma parseStd_year_digits t rest f :
  digitsOfLength 4 4 t ->
  time.parseStd time.stdLongYear (t ++ rest) f = Ok (rest, setYear f (numeral t)).
Proof.
  intros [Hd Hl]. unfold time.parseStd.
  replace (time.take 4 (t ++ rest)) with t
    by (replace 4%nat with (String.length t) by lia; now rewrite take_append).
  replace (time.drop 4 (t ++ rest)) with rest
    by (replace 4%nat with (String.length t) by lia; now rewrite drop_append).
  rewrite length_append.
  replace (String.length t + String.length rest <? 4)%nat with false
    by (symmetry; apply Nat.ltb_ge; lia).
  destruct t as [|c t]; [simpl in Hl; lia |].
  assert (Hc : time.isDigitChar c = true)
    by (simpl in Hd; apply andb_true_iff in Hd; tauto).
  unfold time.isDigit. simpl String.get. cbv iota. rewrite Hc. simpl negb. simpl orb.
  cbv iota. rewrite atoi_digits by (auto; lia). reflexivity.
Qed.

Lemma digitRun_digits : forall ds pre post fuel,
  allDigits ds = true -> time.isDigit post 0 = false -> (String.length ds <= fuel)%nat ->
  time.digitRun (pre ++ ds ++ post) (String.length pre) fuel
  = (String.length pre + String.length ds)%nat.
Proof.
  induction ds as [|c ds IH]; intros pre post fuel Hd Hp Hf.
  - simpl. destruct fuel as [|fuel]; simpl; [lia |].
    unfold time.isDigit in *. rewrite get_append. rewrite Hp. lia.
  - simpl in Hd. apply andb_true_iff in Hd. destruct Hd as [Hc Hd].
    destruct fuel as [|fuel]; [simpl in Hf; lia |]. simpl time.digitRun.
    unfold time.isDigit at 1. rewrite get_append. simpl String.get. cbv iota. rewrite Hc.
    specialize (IH (pre ++ String c "") post fuel Hd Hp ltac:(simpl in Hf; lia)).
    rewrite append_assoc in IH. simpl in IH. rewrite length_append in IH. simpl in IH.
    replace (S (String.length pre)) with (String.length pre + 1)%nat by lia.
    simpl. rewrite IH. simpl. lia.
Qed.

Lemma parseNanoseconds_digits c0 c1 ds post :
  time.commaOrPeriod c0 = true -> time.isDigitChar c1 = true -> allDigits ds = true ->
  time.parseNanoseconds (String c0 (String c1 (ds ++ post))) (2 + String.length ds)
  = Ok (nanoseconds (String c0 (String c1 ds))).
Proof.
  intros H0 H1 Hd. unfold time.parseNanoseconds. rewrite H0. simpl negb. cbv iota.
  assert (E9 : nanoseconds (String c0 (String c1 ds))
               = numeral (time.take 9 (String c1 ds))
                 * 10 ^ Z.of_nat (10 - S (Nat.min (String.length (String c1 ds)) 9))).
  { unfold nanoseconds. f_equal. f_equal. f_equal. lia. }
  rewrite E9. clear E9.
  set (n := Nat.min (2 + String.length ds) 10).
  assert (En : n = S (Nat.min (String.length (String c1 ds)) 9)) by (subst n; simpl; lia).
  rewrite En.
  change (time.take (S ?k) (String c0 ?x)) with (String c0 (time.take k x)).
  change (time.drop 1 (String c0 ?x)) with x.
  change (String c1 (ds ++ post)) with (String c1 ds ++ post).
  rewrite take_append_le by lia. rewrite take_min9.
  assert (Hd9 : allDigits (time.take 9 (String c1 ds)) = true).
  { apply allDigits_take. simpl. now rewrite H1, Hd. }
  assert (Hl9 : (String.length (time.take 9 (String c1 ds)) <= 9)%nat).
  { destruct (Nat.le_gt_cases (String.length (String c1 ds)) 9) as [Hle | Hgt].
    - rewrite take_all by exact Hle. exact Hle.
    - rewrite length_take by lia. lia. }
  pose proof (numeral_nonneg _ Hd9) as Hnn.
  remember (String.length (String c1 ds)) as L.
  change (time.take 9 (String c1 ds)) with (String c1 (time.take 8 ds)) in *.
  remember (time.take 8 ds) as d8.
  rewrite atoi_digits by (auto; lia). cbn [bind].
  replace (numeral (String c1 d8) <? 0) with false by (symmetry; apply Z.ltb_ge; lia).
  reflexivity.
Qed.

Lemma parseStd_second_digits t fr g rest f :
  digitsOfLength 2 2 t -> numeral t <= 59 -> fraction fr -> spaceRun g ->
  time.parseStd time.stdZeroSecond (t ++ fr ++ g ++ rest) f
  = Ok (g ++ rest,
        setSec f (numeral t)
          (match fr with EmptyString => time.nsec f | _ => nanoseconds fr end)).
Proof.
  intros [Hd Hl] Hr Hfr [Hne Hg]. unfold time.parseStd.
  rewrite getnum_digits by (auto; lia). cbn [bind]. cbv beta iota.
  pose proof (numeral_nonneg t Hd).
  replace (numeral t <? 0) with false by (symmetry; apply Z.ltb_ge; lia).
  replace (60 <=? numeral t) with false by (symmetry; apply Z.leb_gt; lia).
  simpl orb. cbv iota.
  destruct g as [|s g]; [contradiction |]. simpl in Hg. apply andb_true_iff in Hg.
  destruct Hg as [Hs Hg]. apply Ascii.eqb_eq in Hs. subst s.
  destruct Hfr as [-> | (c0 & ds & -> & H0 & Hds & Hd')].
  - simpl. rewrite andb_false_r. reflexivity.
  - destruct ds as [|c1 ds]; [contradiction |].
    simpl in Hd'. apply andb_true_iff in Hd'. destruct Hd' as [H1 Hd'].
    change (String c0 (String c1 ds) ++ String " " g ++ rest)
      with (String c0 (String c1 (ds ++ String " " (g ++ rest)))).
    simpl String.length. simpl String.get. cbv iota.
    unfold time.isDigit at 1. simpl String.get. cbv iota. rewrite H0, H1.
    change (2 <=? S (S ?k))%nat with true. simpl andb. cbv iota.
    change (String c0 (String c1 (ds ++ String " " (g ++ rest))))
      with (String c0 (String c1 "") ++ ds ++ String " " (g ++ rest)).
    rewrite (digitRun_digits ds (String c0 (String c1 "")) (String " " (g ++ rest)))
      by (auto; rewrite length_append; lia).
    change (String c0 (String c1 "") ++ ds ++ String " " (g ++ rest))
      with (String c0 (String c1 (ds ++ String " " (g ++ rest)))).
    change (String.length (String c0 (String c1 "")) + String.length ds)%nat
      with (2 + String.length ds)%nat.
    rewrite parseNanoseconds_digits by auto. cbn [bind].
    change (String c0 (String c1 (ds ++ String " " (g ++ rest))))
      with (String c0 (String c1 ds) ++ String " " (g ++ rest)).
    change (2 + String.length ds)%nat with (String.length (String c0 (String c1 ds))).
    rewrite drop_append. reflexivity.
Qed.

Lemma digits_head t :
  allDigits t = true -> (1 <= String.length t)%nat ->
  exists c t', t = String c t' /\ time.isDigitChar c = true.
Proof.
  destruct t as [|c t]; simpl; intros Hd Hl; [lia |].
  apply andb_true_iff in Hd. destruct Hd as [Hc _]. eauto.
Qed.

(** Every string of the tolerated form parses, to the instant its pieces
    spell. *)
Lemma parseDate_tolerated p : tolerated p -> parseDate (spell p) = Ok (instantOf p).
Proof.
  destruct p as [tM tD tY g1 tH tMi tS fr g2 ap]. unfold tolerated, spell, instantOf.
  cbn [tMonth tDay tYear tGap1 tHour tMinute tSecond tFraction tGap2 tHalf].
  intros ([HMd HMl] & [HDd HDl] & HY & Hg1 & [HHd HHl] & [HMid HMil] & HS & Hfr & Hg2 & Hap
          & HMr & HDr & HHr & HMir & HSr).
  pose proof (numeral_nonneg _ HMd). pose proof (numeral_nonneg _ HDd).
  pose proof (numeral_nonneg _ HHd). pose proof (numeral_nonneg _ HMid).
  destruct (digits_head tH HHd ltac:(lia)) as (hc & ht & Eh & Hhc).
  unfold parseDate, time.Parse, DateFormat.
  cbn [time.chunks time.trailer time.parseLoop].
  change ("/" ++ ?x) with (String "/" x).
  rewrite skip_nothing. cbn [bind].
  (* month *)
  unfold time.parseStd at 1. rewrite getnum_digits by (auto; right; split; reflexivity).
  cbn [bind]. cbv beta iota.
  replace (numeral tM <=? 0) with false by (symmetry; apply Z.leb_gt; lia).
  replace (12 <? numeral tM) with false by (symmetry; apply Z.ltb_ge; lia).
  simpl orb. cbv iota. cbn [bind]. cbv beta iota.
  rewrite skip_slash. cbn [bind].
  (* day *)
  change ("/" ++ ?x) with (String "/" x).
  unfold time.parseStd at 1. rewrite getnum_digits by (auto; right; split; reflexivity).
  cbn [bind]. cbv beta iota.
  rewrite skip_slash. cbn [bind].
  (* year *)
  rewrite parseStd_year_digits by exact HY. cbn [bind]. cbv beta iota.
  (* hour *)
  rewrite Eh. change (String hc ht ++ ?x) with (String hc (ht ++ x)).
  rewrite skip_spaces by (auto; now apply digit_not_space).
  change (String hc (ht ++ ?x)) with (String hc ht ++ x). rewrite <- Eh.
  cbn [bind].
  change (":" ++ ?x) with (String ":" x).
  unfold time.parseStd at 1. rewrite getnum_digits by (auto; right; split; reflexivity).
  cbn [bind]. cbv beta iota.
  replace (numeral tH <? 0) with false by (symmetry; apply Z.ltb_ge; lia).
  replace (12 <? numeral tH) with false by (symmetry; apply Z.ltb_ge; lia).
  simpl orb. cbv iota. cbn [bind]. cbv beta iota.
  rewrite skip_colon. cbn [bind].
  (* minute *)
  change (":" ++ ?x) with (String ":" x).
  unfold time.parseStd at 1. rewrite getnum_digits by (auto; lia).
  cbn [bind]. cbv beta iota.
  replace (numeral tMi <? 0) with false by (symmetry; apply Z.ltb_ge; lia).
  replace (60 <=? numeral tMi) with false by (symmetry; apply Z.leb_gt; lia).
  simpl orb. cbv iota. cbn [bind]. cbv beta iota.
  rewrite skip_colon. cbn [bind].
  (* second and fraction *)
  rewrite parseStd_second_digits by auto. cbn [bind]. cbv beta iota.
  (* AM or PM *)
  assert (Hnsec : match fr with EmptyString => 0 | String _ _ => nanoseconds fr end
                  = nanoseconds fr) by (destruct fr; reflexivity).
  assert (Hlo : (numeral tD <? 1) = false) by (apply Z.ltb_ge; lia).
  assert (Hhi : (time.daysIn (numeral tM) (numeral tY) <? numeral tD) = false)
    by (apply Z.ltb_ge; lia).
  destruct Hap as [-> | ->].
  - change "AM" with (String "A" "M"). rewrite skip_spaces by (auto; reflexivity).
    cbn [bind]. simpl.
    rewrite Hlo, Hhi, Hnsec. simpl. unfold hour24. simpl. reflexivity.
  - change "PM" with (String "P" "M"). rewrite skip_spaces by (auto; reflexivity).
    cbn [bind]. simpl.
    rewrite Hlo, Hhi, Hnsec. simpl. unfold hour24. simpl. reflexivity.
Qed.

(** *** [parseDate] never panics *)

Lemma noPanic_Ok {A} (a : A) : noPanic (Ok a).
Proof. intros p; discriminate. Qed.

Lemma noPanic_Err {A} e : noPanic (@Err A e).
Proof. intros p; discriminate. Qed.

Lemma noPanic_bind {A B} (m : outcome A) (k : A -> outcome B) :
  noPanic m -> (forall a, m = Ok a -> noPanic (k a)) -> noPanic (bind m k).
Proof.
  intros Hm Hk. destruct m as [a | e | p]; simpl.
  - now apply Hk.
  - apply noPanic_Err.
  - exfalso. now apply (Hm p).
Qed.

Lemma noPanic_if {A} (b : bool) (x y : outcome A) :
  noPanic x -> noPanic y -> noPanic (if b then x else y).
Proof. now destruct b. Qed.

Create HintDb nopanic.
#[local] Hint Resolve noPanic_Ok noPanic_Err noPanic_if : nopanic.

Lemma getnum_noPanic s fixed : noPanic (time.getnum s fixed).
Proof. unfold time.getnum. auto 6 with nopanic. Qed.

Lemma leadingInt_noPanic : forall s x, noPanic (time.leadingInt s x).
Proof. induction s as [|c s IH]; intros x; simpl; auto 8 with nopanic. Qed.

Lemma atoi_noPanic s : noPanic (time.atoi s).
Proof.
  unfold time.atoi.
  destruct (match s with
            | String c r =>
              if Ascii.eqb c "-" then (true, r)
              else if Ascii.eqb c "+" then (false, r) else (false, s)
            | EmptyString => (false, s)
            end) as [neg s1].
  pose proof (leadingInt_noPanic s1 0) as H.
  destruct (time.leadingInt s1 0) as [[q [|]] | |]; auto with nopanic.
Qed.

Lemma skipLoop_noPanic : forall n value prefix, noPanic (time.skipLoop n value prefix).
Proof.
  induction n as [|n IH]; intros value [|p prefix]; simpl; auto with nopanic.
  destruct (Ascii.eqb p " "); destruct value as [|v value]; auto with nopanic.
Qed.

Lemma skip_noPanic value prefix : noPanic (time.skip value prefix).
Proof. apply skipLoop_noPanic. Qed.

Lemma parseNanoseconds_noPanic c value n : noPanic (time.parseNanoseconds (String c value) n).
Proof.
  unfold time.parseNanoseconds. apply noPanic_if; [apply noPanic_Err |].
  apply noPanic_bind; [apply atoi_noPanic | intros; auto with nopanic].
Qed.

Lemma parseStd_noPanic s value f : noPanic (time.parseStd s value f).
Proof.
  pose proof getnum_noPanic. pose proof atoi_noPanic.
  destruct s; unfold time.parseStd.
  - apply noPanic_bind; [auto | intros [n v] _; auto with nopanic].
  - apply noPanic_bind; [auto | intros [n v] _; auto with nopanic].
  - apply noPanic_if; [apply noPanic_Err |]. apply noPanic_bind; auto with nopanic.
  - apply noPanic_bind; [auto | intros [n v] _; auto with nopanic].
  - apply noPanic_bind; [auto | intros [n v] _; auto with nopanic].
  - apply noPanic_bind; [auto |]. intros [n v] _.
    apply noPanic_if; [apply noPanic_Err |].
    destruct v as [|c v]; [simpl; apply noPanic_Ok |].
    apply noPanic_if; [| apply noPanic_Ok].
    apply noPanic_bind; [apply parseNanoseconds_noPanic | auto with nopanic].
  - auto 8 with nopanic.
Qed.

Lemma parseLoop_noPanic : forall cs trail value f, noPanic (time.parseLoop cs trail value f).
Proof.
  induction cs as [|[prefix s] cs IH]; intros trail value f; simpl.
  - apply noPanic_bind; [apply skip_noPanic | auto with nopanic].
  - apply noPanic_bind; [apply skip_noPanic |]. intros v _.
    apply noPanic_bind; [apply parseStd_noPanic |]. intros [v' f'] _. apply IH.
Qed.

Lemma parseDate_noPanic s : noPanic (parseDate s).
Proof.
  unfold parseDate, time.Parse. apply noPanic_bind; [apply parseLoop_noPanic |].
  intros f _. auto with nopanic.
Qed.

Lemma parseDate_rejects s :
  ~ toleratedDate s -> exists e, parseDate s = Err e.
Proof.
  intros Hn. destruct (parseDate s) as [t | e | p] eqn:E.
  - exfalso. apply Hn. apply parseDate_Ok in E. destruct E as (p & E1 & E2 & _).
    exists p. auto.
  - eauto.
  - exfalso. now apply (parseDate_noPanic s p).
Qed.

(** C8, as stated, fails on a date with a fractional second: the string is
    not of the form [M/D/YYYY h:mm:ss AM|PM], and it parses, to an instant
    with the fraction in it. *)
Lemma parseDate_takes_fraction :
  parseDate "9/7/2025 6:01:03.5 PM" = Ok (time.mkTime 1757268063 500000000)
  /\ ~ (exists y mo d h mi se pm, wellFormed "9/7/2025 6:01:03.5 PM" y mo d h mi se pm).
Proof.
  split; [reflexivity |].
  intros (y & mo & d & h & mi & se & pm & Hy & Hmo & Hd & Hh & Hmi & Hse & E).
  pose proof (parseDate_formatDate y mo d h mi se pm Hy Hmo Hd Hh Hmi Hse) as P.
  rewrite <- E in P.
  assert (Q : parseDate "9/7/2025 6:01:03.5 PM" = Ok (time.mkTime 1757268063 500000000))
    by reflexivity.
  rewrite Q in P.
  assert (N : 500000000 = 0)
    by exact (f_equal (fun o => match o with Ok t => time.nanos t | _ => 0 end) P).
  discriminate N.
Qed.

(** C8 (amended): a well-formed [M/D/YYYY h:mm:ss AM|PM] string parses to
    the exact UTC instant it denotes.  [parseDate] returns a time exactly
    for the strings of the form the layout tolerates (the strict form, or
    with a second digit in month, day or hour, an hour of 0, runs of
    spaces for the two spaces, a fractional second after the seconds),
    and then the instant the pieces spell; for every other string it
    returns an error, and so does the decoding of the glucose measurement
    that holds the string: a measurement that decodes carries the parsed
    time, never a default. *)
Theorem parseDate_exact_or_error s :
  (forall y mo d h mi se pm,
      wellFormed s y mo d h mi se pm ->
      parseDate s = Ok (time.Date y mo d (hour24 h pm) mi se 0))
  /\ (forall t, parseDate s = Ok t <-> exists p, s = spell p /\ tolerated p /\ t = instantOf p)
  /\ (~ toleratedDate s ->
      exists e, parseDate s = Err e
                /\ forall g, GlucoseMeasurement_UnmarshalJSON
                               (json.Filled {| aux_Timestamp := s; aux_Alias := g |}) = Err e)
  /\ (forall g g',
      GlucoseMeasurement_UnmarshalJSON (json.Filled {| aux_Timestamp := s; aux_Alias := g |})
      = Ok g' ->
      parseDate s = Ok (Timestamp g')).
Proof.
  split; [| split; [| split]].
  - intros y mo d h mi se pm (Hy & Hmo & Hd & Hh & Hmi & Hse & ->).
    now apply parseDate_formatDate.
  - intros t. split.
    + apply parseDate_Ok.
    + intros (p & -> & Hp & ->). now apply parseDate_tolerated.
  - intros Hn. destruct (parseDate_rejects s Hn) as (e & He). exists e. split; [exact He |].
    intros g. unfold GlucoseMeasurement_UnmarshalJSON. simpl. rewrite He. reflexivity.
  - intros g g'. unfold GlucoseMeasurement_UnmarshalJSON. simpl.
    destruct (parseDate s) as [t | e | p]; intros H; [| discriminate | discriminate].
    injection H as <-. reflexivity.
Qed.

Lemma not_tolerated_month19 : ~ toleratedDate "19/7/2025 6:01:03 PM".
Proof.
  intros (p & E & Hp). apply parseDate_tolerated in Hp. rewrite <- E in Hp.
  assert (Q : parseDate "19/7/2025 6:01:03 PM" = Err "month out of range") by reflexivity.
  rewrite Q in Hp. discriminate Hp.
Qed.

Lemma parseDate_exact_or_error_examples :
  parseDate "9/7/2025 6:01:03 PM" = Ok (time.Date 2025 9 7 18 1 3 0)
  /\ exists e, parseDate "19/7/2025 6:01:03 PM" = Err e
               /\ forall g, GlucoseMeasurement_UnmarshalJSON
                              (json.Filled {| aux_Timestamp := "19/7/2025 6:01:03 PM";
                                              aux_Alias := g |}) = Err e.
Proof.
  split.
  - apply (proj1 (parseDate_exact_or_error "9/7/2025 6:01:03 PM") 2025 9 7 6 1 3 true).
    unfold wellFormed. repeat split; solve [lia | reflexivity | (vm_compute; discriminate)].
  - apply (proj1 (proj2 (proj2 (parseDate_exact_or_error "19/7/2025 6:01:03 PM")))).
    exact not_tolerated_month19.
Defined.

(** * Further properties of the code *)

(** ** More on requests *)

Section MoreRequests.

Variable rt : Runtime.

Lemma handleRedirect_cases c resp r c' :
  handleRedirect rt c resp = (r, c') ->
  (r <> Ok true /\ c' = c)
  \/ (r = Ok true
      /\ exists region u,
           getPayload_RedirecResponse resp = Ok {| Redirect := true; Region := region |}
           /\ region <> "" /\ urlParse rt (getUrl region) = Ok u /\ c' = setBaseUrl c u).
Proof.
  unfold handleRedirect. intros H.
  destruct (getPayload_RedirecResponse resp) as [[red region] | e | p] eqn:Hp;
    [| inversion H; left; split; [discriminate | reflexivity] ..].
  simpl in H. destruct red; simpl in H;
    [| inversion H; left; split; [discriminate | reflexivity]].
  destruct (String.eqb_spec region "") as [-> | Hne];
    [inversion H; left; split; [discriminate | reflexivity] |].
  destruct (urlParse rt (getUrl region)) as [u | e | p] eqn:Hu;
    inversion H; subst; [| left; split; [discriminate | reflexivity] ..].
  right. split; [reflexivity |]. exists region, u. auto.
Qed.

(** X1: an envelope that [doRequest] returns has status zero and does not
    signal a redirect: envelopes with a non-zero status and redirect
    envelopes never reach the caller. *)
Theorem doRequest_returns_plain_envelope fuel : forall s method endpoint body resp s1,
  doRequest rt fuel s method endpoint body = Some (Ok resp, s1) ->
  Status resp = 0
  /\ forall redirect, getPayload_RedirecResponse resp = Ok redirect -> Redirect redirect = false.
Proof.
  induction fuel as [|fuel IH]; intros s method endpoint body resp s1 H; simpl in H;
    [discriminate |].
  destruct (prepareRequest rt (client s) method endpoint body) as [req | e | p];
    [| discriminate | discriminate].
  destruct (httpDo rt (sent s) req) as [r | e | p]; [| discriminate | discriminate].
  destruct (negb (StatusCode r =? 200)); [discriminate |].
  destruct (unmarshalLibreLinkResp (RespBody r)) as [libreResp | e | p];
    [| discriminate | discriminate].
  destruct (Z.eqb_spec (Status libreResp) 0) as [Hs | Hs]; simpl in H;
    [| destruct (Error libreResp); discriminate].
  destruct (handleRedirect rt (client s) libreResp) as [o c2] eqn:Hh.
  destruct o as [[|] | e | p]; [| | discriminate | discriminate].
  - now apply IH in H.
  - injection H as <- <-. split; [exact Hs |].
    intros redirect Hr. unfold handleRedirect in Hh. rewrite Hr in Hh.
    destruct (Redirect redirect); [| reflexivity]. simpl in Hh.
    destruct (String.eqb (Region redirect) ""); [discriminate |].
    destruct (urlParse rt (getUrl (Region redirect))); discriminate.
Qed.

Lemma prepareRequest_Ok c method endpoint body req :
  prepareRequest rt c method endpoint body = Ok req ->
  Method req = method
  /\ Url req = urlJoinPath rt (baseUrl c) endpoint
  /\ Header req = (fixedHeaders ++ authHeaders (creds c))%list
  /\ Body req = match body with Some b => b | None => "" end.
Proof.
  unfold prepareRequest. destruct (newRequest rt method _); [discriminate |].
  intros H. injection H as <-. simpl. repeat split.
Qed.

(** The requests of a call, and what the call leaves alone. *)
Lemma doRequest_sends fuel : forall s method endpoint body r s1,
  doRequest rt fuel s method endpoint body = Some (r, s1) ->
  (exists new,
      sent s1 = (new ++ sent s)%list
      /\ (List.length new <= fuel)%nat
      /\ Forall (requestOf rt s method endpoint) new)
  /\ user (client s1) = user (client s)
  /\ password (client s1) = password (client s)
  /\ creds (client s1) = creds (client s).
Proof.
  induction fuel as [|fuel IH]; intros s method endpoint body r s1 H; simpl in H;
    [discriminate |].
  assert (Hnil : forall o, Some (o, s) = Some (r, s1) ->
            (exists new, sent s1 = (new ++ sent s)%list /\ (List.length new <= S fuel)%nat
                         /\ Forall (requestOf rt s method endpoint) new)
            /\ user (client s1) = user (client s) /\ password (client s1) = password (client s)
            /\ creds (client s1) = creds (client s)).
  { intros o Ho. injection Ho as _ <-. split; [exists []; simpl; repeat split; auto; lia |].
    auto. }
  destruct (prepareRequest rt (client s) method endpoint body) as [req | e | p] eqn:Hreq;
    [| eapply Hnil; eauto ..].
  apply prepareRequest_Ok in Hreq. destruct Hreq as (Hm & Hu & Hh & _).
  assert (Hq : requestOf rt s method endpoint req).
  { split; [exact Hm |]. split; [exact Hh |]. eauto. }
  assert (Hone : forall o c2, Some (o, {| client := c2; sent := req :: sent s |}) = Some (r, s1) ->
            user c2 = user (client s) -> password c2 = password (client s) ->
            creds c2 = creds (client s) ->
            (exists new, sent s1 = (new ++ sent s)%list /\ (List.length new <= S fuel)%nat
                         /\ Forall (requestOf rt s method endpoint) new)
            /\ user (client s1) = user (client s) /\ password (client s1) = password (client s)
            /\ creds (client s1) = creds (client s)).
  { intros o c2 Ho H1 H2 H3. injection Ho as _ <-. simpl.
    split; [exists [req]; simpl; repeat split; auto; lia | auto]. }
  destruct (httpDo rt (sent s) req) as [resp | e | p]; [| eapply Hone; eauto ..].
  destruct (negb (StatusCode resp =? 200)); [eapply Hone; eauto |].
  destruct (unmarshalLibreLinkResp (RespBody resp)) as [libreResp | e | p];
    [| eapply Hone; eauto ..].
  destruct (negb (Status libreResp =? 0)).
  { destruct (Error libreResp); eapply Hone; eauto. }
  simpl in H.
  destruct (handleRedirect rt (client s) libreResp) as [o c2] eqn:Hh'.
  pose proof (handleRedirect_keeps_creds rt _ _ _ _ Hh') as (Hc & Hus & Hpw).
  destruct o as [[|] | e | p]; [| eapply Hone; eauto ..].
  apply IH in H. simpl in H. destruct H as ((new & Hs & Hl & Hf) & H1 & H2 & H3).
  split; [| repeat split; congruence].
  exists (new ++ [req])%list. split; [rewrite Hs, <- app_assoc; reflexivity |].
  split; [rewrite length_app; simpl; lia |].
  apply Forall_app. split; [| constructor; [exact Hq | constructor]].
  eapply Forall_impl; [| exact Hf]. intros q (Q1 & Q2 & Q3). simpl in Q2.
  split; [exact Q1 |]. split; [rewrite Q2, Hc; reflexivity | exact Q3].
Qed.

(** X2: whatever the remote answers, a call of [doRequest] only adds
    requests to those sent before, at most one for each unit of its bound;
    each has the method of the call, the endpoint of the call joined to
    some base URL, and the six fixed headers followed by the credential
    headers of the client (none without credentials); user, password and
    credentials of the client are left as they were. *)
Theorem doRequest_trace fuel : forall s method endpoint body r s1,
  doRequest rt fuel s method endpoint body = Some (r, s1) ->
  (exists new,
      sent s1 = (new ++ sent s)%list
      /\ (List.length new <= fuel)%nat
      /\ Forall (requestOf rt s method endpoint) new)
  /\ user (client s1) = user (client s)
  /\ password (client s1) = password (client s)
  /\ creds (client s1) = creds (client s).
Proof. exact (doRequest_sends fuel). Qed.

(** X3: the base URL of the client after [doRequest] is the one it had, or
    the URL parsed from [getUrl] of a nonempty region that an envelope
    named: no other base URL is ever set. *)
Theorem doRequest_base_url fuel : forall s method endpoint body r s1,
  doRequest rt fuel s method endpoint body = Some (r, s1) ->
  baseUrl (client s1) = baseUrl (client s)
  \/ exists region, region <> "" /\ urlParse rt (getUrl region) = Ok (baseUrl (client s1)).
Proof.
  induction fuel as [|fuel IH]; intros s method endpoint body r s1 H; simpl in H;
    [discriminate |].
  destruct (prepareRequest rt (client s) method endpoint body) as [req | e | p];
    [| injection H as _ <-; auto ..].
  destruct (httpDo rt (sent s) req) as [resp | e | p]; [| injection H as _ <-; auto ..].
  destruct (negb (StatusCode resp =? 200)); [injection H as _ <-; auto |].
  destruct (unmarshalLibreLinkResp (RespBody resp)) as [libreResp | e | p];
    [| injection H as _ <-; auto ..].
  destruct (negb (Status libreResp =? 0)).
  { destruct (Error libreResp); injection H as _ <-; auto. }
  simpl in H.
  destruct (handleRedirect rt (client s) libreResp) as [o c2] eqn:Hh.
  apply handleRedirect_cases in Hh.
  destruct Hh as [[Hno ->] | (-> & region & u & _ & Hne & Hu & ->)].
  - destruct o as [[|] | e | p]; [contradiction | injection H as _ <-; auto ..].
  - apply IH in H. simpl in H. destruct H as [H | H]; [| right; exact H].
    right. exists region. split; [exact Hne |]. rewrite H. exact Hu.
Qed.

End MoreRequests.

(** ** The ticket *)

(** X4: [AuthTicket.UnmarshalJSON] turns the expiry into the instant that
    many seconds after the epoch, and the duration, given in milliseconds,
    into nanoseconds: exactly, as long as the milliseconds are at most
    9223372036854 in size; one millisecond more and the [int64] product
    wraps around to a negative duration. *)
Theorem AuthTicket_duration aux :
  - 9223372036854 <= aux_Duration aux <= 9223372036854 ->
  AuthTicket_UnmarshalJSON (json.Filled aux)
  = Ok {| Token := Token (aux_TicketAlias aux);
          Expires := time.Unix (aux_Expires aux) 0;
          Duration := aux_Duration aux * 1000000 |}
  /\ (forall expires alias t,
        AuthTicket_UnmarshalJSON
          (json.Filled {| aux_Expires := expires; aux_Duration := 9223372036855;
                          aux_TicketAlias := alias |}) = Ok t ->
        Duration t < 0).
Proof.
  intros H. split.
  - unfold AuthTicket_UnmarshalJSON. f_equal. f_equal. unfold wrap64.
    change (2 ^ 63) with 9223372036854775808. change (2 ^ 64) with 18446744073709551616.
    rewrite Z.mod_small by lia. lia.
  - intros expires alias t Ht. unfold AuthTicket_UnmarshalJSON in Ht. injection Ht as <-.
    vm_compute. reflexivity.
Qed.

(** ** The graph payload *)

Lemma mapM_Ok {A B} (f : A -> outcome B) : forall l l',
  mapM f l = Ok l' <-> Forall2 (fun a b => f a = Ok b) l l'.
Proof.
  induction l as [|a l IH]; intros l'; simpl.
  - split; intros H; [injection H as <-; constructor | inversion H; reflexivity].
  - split.
    + intros H. destruct (f a) as [b | e | p] eqn:Ha; simpl in H; try discriminate.
      destruct (mapM f l) as [bs | e | p] eqn:Hm; simpl in H; try discriminate.
      injection H as <-. constructor; [exact Ha | now apply IH].
    + intros H. inversion H as [| a' b l0 bs Ha Hl]; subst. rewrite Ha. simpl.
      apply IH in Hl. rewrite Hl. reflexivity.
Qed.

Lemma GlucoseMeasurement_UnmarshalJSON_Ok raw m :
  GlucoseMeasurement_UnmarshalJSON raw = Ok m <-> decodesTo raw m.
Proof.
  unfold GlucoseMeasurement_UnmarshalJSON, decodesTo. split.
  - destruct raw as [aux | | e]; try discriminate.
    destruct (parseDate (aux_Timestamp aux)) as [t | e | p] eqn:Hp; try discriminate.
    intros H. injection H as <-. exists aux. simpl. rewrite Hp. auto.
  - intros (aux & -> & Hp & Hm). rewrite Hp. now rewrite <- Hm.
Qed.

(** X5: the graph payload decodes as a whole or not at all.  When
    [getPayload] returns graph data for a payload that is an object, the
    historic entries are those of the payload, as many and in its order,
    each with the time its own [FactoryTimestamp] parses to; and when the
    [FactoryTimestamp] of any one historic entry is not a date the layout
    takes, no graph data is returned. *)
Theorem getPayload_GraphData_entries resp raw :
  asGraphData (Data resp) = json.Filled raw ->
  (forall g, getPayload_GraphData resp = Ok g ->
             Forall2 decodesTo (raw_GraphData raw) (GraphData_GraphData g))
  /\ (forall aux, In (json.Filled aux) (raw_GraphData raw) ->
                  ~ toleratedDate (aux_Timestamp aux) ->
                  forall g, getPayload_GraphData resp <> Ok g).
Proof.
  intros Hraw.
  assert (Hall : forall g, getPayload_GraphData resp = Ok g ->
                   Forall2 decodesTo (raw_GraphData raw) (GraphData_GraphData g)).
  { intros g. unfold getPayload_GraphData. rewrite Hraw. simpl. unfold decodeGraphData.
    destruct (match raw_GraphConnection raw with
              | Some rc => decodeConnection rc
              | None => Ok zeroConnection
              end) as [c | e | p]; simpl; try discriminate.
    destruct (mapM GlucoseMeasurement_UnmarshalJSON (raw_GraphData raw)) as [ms | e | p] eqn:Hm;
      simpl; try discriminate.
    intros H. injection H as <-. simpl. apply mapM_Ok in Hm.
    eapply Forall2_impl; [| exact Hm]. intros a b Hab.
    now apply GlucoseMeasurement_UnmarshalJSON_Ok. }
  split; [exact Hall |].
  intros aux Hin Hbad g Hg. apply Hall in Hg.
  assert (Hex : exists m, decodesTo (json.Filled aux) m).
  { clear - Hin Hg. induction Hg as [| a b l l' Hab Hl IH]; [contradiction |].
    destruct Hin as [-> | Hin]; eauto. }
  destruct Hex as (m & aux' & E & Hp & _). injection E as <-.
  apply Hbad. apply parseDate_Ok in Hp. destruct Hp as (p & E1 & E2 & _). exists p. auto.
Qed.

(** ** More on the scrape *)

Section MoreScrape.

Variable rt : Runtime.

Lemma glucoseMetrics_length c r hs :
  List.length (glucoseMetrics c r hs) = (2 + List.length hs)%nat.
Proof. unfold glucoseMetrics. simpl. now rewrite length_map. Qed.

Lemma glucoseMetrics_wellLabelled c r hs : Forall wellLabelled (glucoseMetrics c r hs).
Proof.
  unfold glucoseMetrics. apply Forall_app. split.
  - constructor; [split; [simpl; auto | reflexivity] |].
    constructor; [split; [simpl; auto | reflexivity] | constructor].
  - apply Forall_map. apply Forall_forall. intros h _.
    split; [simpl; auto | reflexivity].
Qed.

(** X6: for a connection whose graph data arrive with a current reading and
    N historic entries, [collectGlucose] sends exactly 2 + N metrics after
    what the channel held: level and trend of the reading, then the
    historic levels in the order of the payload, each stamped with the
    time of its own entry. *)
Theorem collectGlucose_with_reading fuel s ch c data s1 r :
  GetGraphData rt fuel s (PatientId c) = Some (Ok data, s1) ->
  Connection_GlucoseMeasurement (GraphData_Connection data) = Some r ->
  exists ms,
    collectGlucose rt fuel s ch c = Some (Ok tt, s1, (ch ++ ms)%list)
    /\ List.length ms = (2 + List.length (GraphData_GraphData data))%nat
    /\ map timestamp ms
       = Timestamp r :: Timestamp r :: map Timestamp (GraphData_GraphData data)
    /\ map value ms
       = Value r :: float64_of_int (TrendArrow r) :: map Value (GraphData_GraphData data)
    /\ map desc ms
       = glucoseLevelDesc :: trendDesc
         :: map (fun _ => historicDataDesc) (GraphData_GraphData data).
Proof.
  intros Hg Hr. exists (glucoseMetrics c r (GraphData_GraphData data)).
  split; [unfold collectGlucose; rewrite Hg, Hr; reflexivity |].
  split; [apply glucoseMetrics_length |].
  unfold glucoseMetrics. simpl. rewrite !map_map. simpl. auto.
Qed.

Lemma collectGlucose_grows fuel s ch c r s1 ch1 :
  collectGlucose rt fuel s ch c = Some (r, s1, ch1) ->
  exists ms, ch1 = (ch ++ ms)%list /\ Forall wellLabelled ms.
Proof.
  unfold collectGlucose. intros H.
  destruct (GetGraphData rt fuel s (PatientId c)) as [[[data | e | p] s2] |];
    [| injection H as _ _ <-; exists []; rewrite app_nil_r; auto ..| discriminate].
  destruct (Connection_GlucoseMeasurement (GraphData_Connection data)) as [rd |];
    injection H as _ _ <-.
  - eexists. split; [reflexivity | apply glucoseMetrics_wellLabelled].
  - exists []. rewrite app_nil_r. auto.
Qed.

Lemma collectAll_grows fuel : forall conn s ch r s1 ch1,
  collectAll rt fuel s ch conn = Some (r, s1, ch1) ->
  exists ms, ch1 = (ch ++ ms)%list /\ Forall wellLabelled ms.
Proof.
  induction conn as [|c conn IH]; intros s ch r s1 ch1 H; simpl in H.
  - injection H as _ _ <-. exists []. rewrite app_nil_r. auto.
  - destruct (collectGlucose rt fuel s ch c) as [[[o s2] ch2] |] eqn:Hc; [| discriminate].
    apply collectGlucose_grows in Hc. destruct Hc as (ms1 & -> & H1).
    destruct o as [u | e | p].
    + apply IH in H. destruct H as (ms2 & -> & H2).
      exists (ms1 ++ ms2)%list. split; [now rewrite app_assoc | now apply Forall_app].
    + injection H as _ _ <-. eauto.
    + injection H as _ _ <-. eauto.
Qed.

(** X7: whatever the remote answers, and however the scrape ends, [Collect]
    only adds to the channel, and what it adds are metrics of the three
    descriptors of the collector with one value for each of the two labels:
    the metrics [MustNewConstMetric] accepts.  The descriptors that
    [Describe] sends are therefore among those three. *)
Theorem Collect_sends_well_labelled fuel s ch r s1 ch1 :
  Collect rt fuel s ch = Some (r, s1, ch1) ->
  (exists ms, ch1 = (ch ++ ms)%list /\ Forall wellLabelled ms)
  /\ (forall descs r' s' descs',
        Describe rt fuel s descs = Some (r', s', descs') ->
        exists ds, descs' = (descs ++ ds)%list /\ Forall (fun d => In d collectorDescs) ds).
Proof.
  assert (HC : forall ch0 r0 s0 ch0',
             Collect rt fuel s ch0 = Some (r0, s0, ch0') ->
             exists ms, ch0' = (ch0 ++ ms)%list /\ Forall wellLabelled ms).
  { clear. intros ch r s1 ch1 H. unfold Collect in H.
    destruct (if negb (IsAuthenticated (client s))
              then match Authenticate rt fuel s with
                   | Some (r0, s2) => Some (r0, s2)
                   | None => None
                   end
              else Some (Ok tt, s)) as [[[u | e | p] s2] |];
      [| injection H as _ _ <-; exists []; rewrite app_nil_r; auto ..| discriminate].
    destruct (GetConnections rt fuel s2) as [[[conn | e | p] s3] |];
      [| injection H as _ _ <-; exists []; rewrite app_nil_r; auto ..| discriminate].
    now apply collectAll_grows in H. }
  intros H. split; [now apply HC in H |].
  intros descs r' s' descs'. unfold Describe.
  destruct (Collect rt fuel s []) as [[[o s2] ms] |] eqn:Hd; [| discriminate].
  intros E. injection E as _ _ <-. apply HC in Hd. destruct Hd as (ms' & -> & Hw).
  simpl. exists (map desc ms'). split; [reflexivity |].
  apply Forall_map. eapply Forall_impl; [| exact Hw]. intros m [Hm _]. exact Hm.
Qed.

Lemma sentOnly_refl P s : sentOnly P s s.
Proof. exists []. auto. Qed.

Lemma sentOnly_trans P s1 s2 s3 : sentOnly P s1 s2 -> sentOnly P s2 s3 -> sentOnly P s1 s3.
Proof.
  intros (n1 & E1 & F1) (n2 & E2 & F2). exists (n2 ++ n1)%list.
  split; [rewrite E2, E1, app_assoc; reflexivity | now apply Forall_app].
Qed.

Lemma doRequest_get k fuel s endpoint r s1 :
  creds (client s) = Some k ->
  doRequest rt fuel s "GET" endpoint None = Some (r, s1) ->
  creds (client s1) = Some k /\ sentOnly (authenticatedGet k) s s1.
Proof.
  intros Hk H. apply doRequest_sends in H.
  destruct H as ((new & Hs & _ & Hf) & _ & _ & Hc). split; [congruence |].
  exists new. split; [exact Hs |]. eapply Forall_impl; [| exact Hf].
  intros q (Q1 & Q2 & _). rewrite Hk in Q2. split; assumption.
Qed.

Lemma GetConnections_get k fuel s r s1 :
  creds (client s) = Some k ->
  GetConnections rt fuel s = Some (r, s1) ->
  creds (client s1) = Some k /\ sentOnly (authenticatedGet k) s s1.
Proof.
  intros Hk. unfold GetConnections.
  destruct (doRequest rt fuel s "GET" "llu/connections" None) as [[o s2] |] eqn:Hd;
    [| discriminate].
  apply (doRequest_get k) in Hd; [| exact Hk].
  destruct o as [resp | e | p]; [destruct (getPayload_Connections resp) |..];
    intros H; injection H as _ <-; exact Hd.
Qed.

Lemma getGraphData_get k fuel s cid r s1 :
  creds (client s) = Some k ->
  getGraphData rt fuel s cid = Some (r, s1) ->
  creds (client s1) = Some k /\ sentOnly (authenticatedGet k) s s1.
Proof.
  intros Hk. unfold getGraphData.
  destruct (doRequest rt fuel s "GET" _ None) as [[o s2] |] eqn:Hd; [| discriminate].
  apply (doRequest_get k) in Hd; [| exact Hk].
  destruct o as [resp | e | p]; [destruct (getPayload_GraphData resp) |..];
    intros H; injection H as _ <-; exact Hd.
Qed.

Lemma collectAll_get k fuel : forall conn s ch r s1 ch1,
  creds (client s) = Some k ->
  collectAll rt fuel s ch conn = Some (r, s1, ch1) ->
  creds (client s1) = Some k /\ sentOnly (authenticatedGet k) s s1.
Proof.
  induction conn as [|c conn IH]; intros s ch r s1 ch1 Hk H; simpl in H.
  - injection H as _ <- _. split; [exact Hk | apply sentOnly_refl].
  - unfold collectGlucose in H. simpl in H.
    destruct (getGraphData rt fuel s (PatientId c)) as [[o s2] |] eqn:Hg; [| discriminate].
    apply (getGraphData_get k) in Hg; [| exact Hk]. destruct Hg as [Hk2 Hs2].
    destruct o as [data | e | p].
    + destruct (Connection_GlucoseMeasurement (GraphData_Connection data));
        apply IH in H; auto; destruct H as [H1 H2];
        (split; [exact H1 | eapply sentOnly_trans; eauto]).
    + apply IH in H; auto. destruct H as [H1 H2].
      split; [exact H1 | eapply sentOnly_trans; eauto].
    + injection H as _ <- _. auto.
Qed.

(** X8: a scrape by a client that holds credentials never logs in and
    never touches the credentials, whatever the remote answers (a rejected
    or expired token included): every request it sends is a [GET] that
    carries the account id and the bearer token the client held before,
    and the client holds the same credentials afterwards. *)
Theorem Collect_keeps_session fuel s ch k r s1 ch1 :
  creds (client s) = Some k ->
  Collect rt fuel s ch = Some (r, s1, ch1) ->
  creds (client s1) = Some k /\ sentOnly (authenticatedGet k) s s1.
Proof.
  intros Hk. unfold Collect, IsAuthenticated. rewrite Hk. simpl.
  destruct (GetConnections rt fuel s) as [[o s2] |] eqn:Hc; [| discriminate].
  apply (GetConnections_get k) in Hc; [| exact Hk]. destruct Hc as [Hk2 Hs2].
  destruct o as [conn | e | p].
  - intros H. apply (collectAll_get k) in H; [| exact Hk2]. destruct H as [H1 H2].
    split; [exact H1 | eapply sentOnly_trans; eauto].
  - intros H. injection H as _ <- _. auto.
  - intros H. injection H as _ <- _. auto.
Qed.


End MoreScrape.

(** ** Setting up the client *)

Section MoreSetup.

Variable rt : Runtime.

(** X10: a configuration that [Validate] accepts has user id and token both
    or neither, and an expiry that is zero or not before now.  The client
    [main] builds from it has the configured user and password and the
    default base URL; with neither it holds no credentials, with both it
    holds the token as given, with the hash of the user id. *)
Theorem mainClient_of_valid_config now username pw c u :
  urlParse rt "https://api.libreview.io" = Ok u ->
  Validate now c = Ok tt ->
  exists cl,
    mainClient rt username pw c = Some cl
    /\ baseUrl cl = u /\ user cl = username /\ password cl = pw
    /\ (time.IsZero (Expiry c) = true \/ time.Before (Expiry c) now = false)
    /\ ((UserId c = "" /\ CliToken c = "" /\ creds cl = None)
        \/ (UserId c <> "" /\ CliToken c <> ""
            /\ creds cl = Some (issued rt (UserId c) (CliToken c) (Expiry c)))).
Proof.
  intros Hu Hv. unfold mainClient, NewLibreLinkClient, IsSet. rewrite Hu.
  unfold Validate in Hv.
  destruct (String.eqb_spec (UserId c) "") as [Hi | Hi];
    destruct (String.eqb_spec (CliToken c) "") as [Ht | Ht]; simpl in Hv; try discriminate.
  - eexists. split; [reflexivity |]. simpl. repeat split.
    + destruct (time.IsZero (Expiry c)); [now left |]. right.
      destruct (time.Before (Expiry c) now); [discriminate | reflexivity].
    + left. auto.
  - eexists. split; [reflexivity |]. simpl. repeat split.
    + destruct (time.IsZero (Expiry c)); [now left |]. right.
      destruct (time.Before (Expiry c) now); [discriminate | reflexivity].
    + right. auto.
Qed.

End MoreSetup.

(** ** More on the payloads *)

Section MorePayloads.

Variable rt : Runtime.

(** X11: what [GetConnections] makes of the payload of an envelope that
    [doRequest] returns: a [null] payload is an empty list and no error; an
    envelope with no payload at all is a decode error; a payload that
    decodes gives as many connections as it has entries, in its order. *)
Theorem GetConnections_payload fuel s resp s1 :
  doRequest rt fuel s "GET" "llu/connections" None = Some (Ok resp, s1) ->
  (asConnections (Data resp) = json.Null -> GetConnections rt fuel s = Some (Ok [], s1))
  /\ (Data resp = noData ->
      GetConnections rt fuel s
      = Some (Err "failed to decode connections: unexpected end of JSON input", s1))
  /\ (forall raws conns,
        asConnections (Data resp) = json.Filled raws ->
        GetConnections rt fuel s = Some (Ok conns, s1) ->
        Forall2 (fun raw c => decodeConnection raw = Ok c) raws conns).
Proof.
  intros Hd. unfold GetConnections, getPayload_Connections. rewrite Hd.
  split; [| split].
  - intros ->. reflexivity.
  - intros ->. reflexivity.
  - intros raws conns ->. simpl.
    destruct (mapM decodeConnection raws) as [cs | e | p] eqn:Hm; try discriminate.
    intros H. injection H as <-. now apply mapM_Ok.
Qed.

(** X12: [Authenticate] does not look at what the payload holds: when the
    envelope comes back and its payload is [null], or an object with no
    ticket, the login succeeds, and the client is authenticated with an
    empty token (and with the hash of whatever user id the payload had). *)
Theorem Authenticate_accepts_empty_payload fuel s body resp s1 :
  jsonMarshal rt {| AuthRequest_Email := user (client s);
                    AuthRequest_Password := password (client s) |} = Ok body ->
  doRequest rt fuel s "POST" "llu/auth/login" (Some body) = Some (Ok resp, s1) ->
  asAuthResponse (Data resp) = json.Null
  \/ (exists r, asAuthResponse (Data resp) = json.Filled r /\ raw_AuthTicket r = None) ->
  exists k,
    Authenticate rt fuel s = Some (Ok tt, {| client := setCreds (client s1) k; sent := sent s1 |})
    /\ Token (ticket k) = ""
    /\ IsAuthenticated (setCreds (client s1) k) = true.
Proof.
  intros Hm Hd Hp. unfold Authenticate. rewrite Hm, Hd.
  destruct Hp as [-> | (r & -> & Hr)]; simpl.
  - eexists. split; [reflexivity |]. split; reflexivity.
  - unfold decodeAuthResponse. rewrite Hr. simpl.
    eexists. split; [reflexivity |]. split; reflexivity.
Qed.


(** X14: an HTTP status other than 200 on the connection list is an
    error, whatever the body holds: [GetConnections] returns it after the
    one request, with no retry, and a scrape by a client that holds
    credentials ends there with nothing sent on the channel. *)
Theorem http_status_ends_scrape fuel s ch k req resp :
  creds (client s) = Some k ->
  prepareRequest rt (client s) "GET" "llu/connections" None = Ok req ->
  httpDo rt (sent s) req = Ok resp ->
  StatusCode resp <> 200 ->
  GetConnections rt (S fuel) s
  = Some (Err ("unexpected status code: " ++ itoa (StatusCode resp)), afterSend s req)
  /\ Collect rt (S fuel) s ch = Some (Ok tt, afterSend s req, ch).
Proof.
  intros Hk Hreq Hdo Hc.
  assert (HG : GetConnections rt (S fuel) s
               = Some (Err ("unexpected status code: " ++ itoa (StatusCode resp)),
                       afterSend s req)).
  { unfold GetConnections. simpl. rewrite Hreq, Hdo.
    apply Z.eqb_neq in Hc. rewrite Hc. reflexivity. }
  split; [exact HG |].
  unfold Collect, IsAuthenticated. rewrite Hk. simpl negb. cbv iota.
  rewrite HG. reflexivity.
Qed.

End MorePayloads.

(** ** The calendar *)


Lemma daysIn_range mo y : 28 <= time.daysIn mo y <= 31.
Proof.
  unfold time.daysIn. destruct (mo =? 2); [destruct (time.isLeap y); lia |].
  destruct ((mo =? 4) || (mo =? 6) || (mo =? 9) || (mo =? 11)); lia.
Qed.



Lemma daysSinceEpoch_nextDay y mo d :
  1 <= mo <= 12 -> 1 <= d <= time.daysIn mo y ->
  let '(y', mo', d') := nextDay y mo d in
  time.daysSinceEpoch y' mo' d' = time.daysSinceEpoch y mo d + 1
  /\ 1 <= mo' <= 12 /\ 1 <= d' <= time.daysIn mo' y'.
Proof.
  intros Hmo Hd. unfold nextDay.
  destruct (Z.ltb_spec d (time.daysIn mo y)) as [Hlt | Hge].
  - split; [unfold time.daysSinceEpoch; lia | lia].
  - assert (Ed : d = time.daysIn mo y) by lia.
    assert (Em : mo = 1 \/ mo = 2 \/ mo = 3 \/ mo = 4 \/ mo = 5 \/ mo = 6 \/ mo = 7
                 \/ mo = 8 \/ mo = 9 \/ mo = 10 \/ mo = 11 \/ mo = 12) by lia.
    destruct (Z.ltb_spec mo 12) as [Hm | Hm].
    + pose proof (daysIn_range (mo + 1) y).
      split; [| lia].
      unfold time.daysSinceEpoch, time.daysBefore. rewrite Ed. unfold time.daysIn.
      repeat (destruct Em as [-> | Em]; [simpl; destruct (time.isLeap y); simpl; lia |]).
      lia.
    + assert (mo = 12) by lia. subst mo. subst d.
      change (time.daysIn 12 y) with 31. change (time.daysIn 1 (y + 1)) with 31.
      split; [| lia].
      unfold time.daysSinceEpoch.
      change (time.daysBefore 1 (y + 1)) with (0 + 0).
      change (time.daysBefore 12 y) with (334 + (if time.isLeap y then 1 else 0)).
      replace (y + 1 - 1) with y by lia.
      unfold time.isLeap.
      destruct (Z.eqb_spec (y mod 4) 0); destruct (Z.eqb_spec (y mod 100) 0);
        destruct (Z.eqb_spec (y mod 400) 0); cbn [negb orb andb];
        Z.div_mod_to_equations; lia.
Qed.

(** X16: the instants [parseDate] returns count the days of the calendar:
    midnight of January 1, 1970 is second 0, and the same time of day on
    the day after any day (the next day of the month, the first of the
    next month, the first of January of the next year; leap days counted)
    is 86400 seconds later. *)
Theorem parseDate_next_day y mo d h mi se pm :
  0 <= y <= 9998 -> 1 <= mo <= 12 -> 1 <= d <= time.daysIn mo y ->
  1 <= h <= 12 -> 0 <= mi <= 59 -> 0 <= se <= 59 ->
  parseDate "1/1/1970 12:00:00 AM" = Ok (time.mkTime 0 0)
  /\ exists t t',
       parseDate (formatDate y mo d h mi se pm) = Ok t
       /\ (let '(y', mo', d') := nextDay y mo d in
           parseDate (formatDate y' mo' d' h mi se pm)) = Ok t'
       /\ time.unixSec t' = time.unixSec t + 86400
       /\ time.nanos t' = time.nanos t.
Proof.
  intros Hy Hmo Hd Hh Hmi Hse. split; [reflexivity |].
  pose proof (daysSinceEpoch_nextDay y mo d Hmo Hd) as N.
  assert (Hy' : 0 <= fst (fst (nextDay y mo d)) <= 9999).
  { unfold nextDay. destruct (d <? time.daysIn mo y); [simpl; lia |].
    destruct (mo <? 12); simpl; lia. }
  destruct (nextDay y mo d) as [[y' mo'] d']. simpl in Hy'.
  destruct N as (N1 & N2 & N3).
  do 2 eexists. split; [apply parseDate_formatDate; auto; lia |].
  split; [apply parseDate_formatDate; auto; lia |].
  unfold time.Date. simpl. split; [rewrite N1; lia | reflexivity].
Qed.

(** *** Instances *)

Lemma doRequest_returns_plain_envelope_example :
  exists resp s1,
    doRequest redirectsTwice 3 (start freshClient) "GET" "llu/connections" None
    = Some (Ok resp, s1)
    /\ Status resp = 0.
Proof.
  do 2 eexists. split; [vm_compute; reflexivity |].
  eapply (doRequest_returns_plain_envelope redirectsTwice 3 (start freshClient)
            "GET" "llu/connections" None).
  vm_compute; reflexivity.
Defined.

Lemma doRequest_trace_example :
  exists r s1 new,
    doRequest redirectsTwice 3 (start freshClient) "GET" "llu/connections" None = Some (r, s1)
    /\ sent s1 = (new ++ [])%list /\ (List.length new <= 3)%nat
    /\ creds (client s1) = None.
Proof.
  destruct (doRequest redirectsTwice 3 (start freshClient) "GET" "llu/connections" None)
    as [[r s1] |] eqn:E; [| vm_compute in E; discriminate E].
  destruct (doRequest_trace redirectsTwice 3 (start freshClient) "GET" "llu/connections" None
              r s1 E) as ((new & Hs & Hl & _) & _ & _ & Hc).
  exists r, s1, new. auto.
Defined.

Lemma doRequest_base_url_example :
  exists r s1,
    doRequest redirectsTwice 3 (start freshClient) "GET" "llu/connections" None = Some (r, s1)
    /\ (baseUrl (client s1) = "https://api.libreview.io"
        \/ exists region, region <> "" /\ baseUrl (client s1) = getUrl region).
Proof.
  destruct (doRequest redirectsTwice 3 (start freshClient) "GET" "llu/connections" None)
    as [[r s1] |] eqn:E; [| vm_compute in E; discriminate E].
  exists r, s1. split; [reflexivity |].
  destruct (doRequest_base_url redirectsTwice 3 (start freshClient) "GET" "llu/connections" None
              r s1 E) as [H | (region & Hne & H)].
  - left. exact H.
  - right. exists region. split; [exact Hne |]. simpl in H. now injection H.
Defined.

(** The ticket of the test of the repository: 15552000000 ms are 180 days. *)
Lemma AuthTicket_duration_example :
  AuthTicket_UnmarshalJSON
    (json.Filled {| aux_Expires := 1773417313; aux_Duration := 15552000000;
                    aux_TicketAlias := {| Token := "eyveioubn"; Expires := time.zero;
                                          Duration := 0 |} |})
  = Ok {| Token := "eyveioubn"; Expires := time.Unix 1773417313 0;
          Duration := 180 * 24 * 3600 * 1000000000 |}.
Proof.
  refine (proj1 (AuthTicket_duration
            {| aux_Expires := 1773417313; aux_Duration := 15552000000;
               aux_TicketAlias := {| Token := "eyveioubn"; Expires := time.zero;
                                     Duration := 0 |} |} _)).
  simpl. lia.
Defined.

Lemma getPayload_GraphData_entries_example :
  ~ exists g,
      getPayload_GraphData
        {| Status := 0; Data := graphPayload ada (Some current) badHistory;
           Ticket := zeroAuthTicket; Error := None |} = Ok g.
Proof.
  intros (g & Hg). revert Hg.
  refine (proj2 (getPayload_GraphData_entries
            {| Status := 0; Data := graphPayload ada (Some current) badHistory;
               Ticket := zeroAuthTicket; Error := None |} _ eq_refl) _ _ _ g).
  - right. left. reflexivity.
  - simpl. intros (p & E & Hp). apply parseDate_tolerated in Hp. rewrite <- E in Hp.
    assert (Q : parseDate "19/7/2025 5:51:03 PM" = Err "month out of range") by reflexivity.
    rewrite Q in Hp. discriminate Hp.
Defined.

Lemma collectGlucose_with_reading_example :
  exists s1 ms,
    collectGlucose adaGraph 1 (start authenticatedClient) [] ada = Some (Ok tt, s1, ms)
    /\ List.length ms = 5%nat.
Proof.
  edestruct (collectGlucose_with_reading adaGraph 1 (start authenticatedClient) [] ada)
    as (ms & HC & Hn & _).
  - vm_compute; reflexivity.
  - reflexivity.
  - do 2 eexists. split; [exact HC | exact Hn].
Defined.

Lemma Collect_sends_well_labelled_example :
  exists r s1 ms,
    Collect loginThenAda 1 (start freshClient) [] = Some (r, s1, ms)
    /\ Forall wellLabelled ms.
Proof.
  destruct (Collect loginThenAda 1 (start freshClient) []) as [[[r s1] ch1] |] eqn:E;
    [| vm_compute in E; discriminate E].
  destruct (proj1 (Collect_sends_well_labelled loginThenAda 1 (start freshClient) [] r s1 ch1 E))
    as (ms & -> & Hw).
  exists r, s1, ms. split; [reflexivity | exact Hw].
Defined.

Lemma Collect_keeps_session_example :
  exists r s1 ch1,
    Collect adaFailsBobAnswers 1 (start authenticatedClient) [] = Some (r, s1, ch1)
    /\ creds (client s1) = Some heldCreds
    /\ sentOnly (authenticatedGet heldCreds) (start authenticatedClient) s1.
Proof.
  destruct (Collect adaFailsBobAnswers 1 (start authenticatedClient) [])
    as [[[r s1] ch1] |] eqn:E; [| vm_compute in E; discriminate E].
  exists r, s1, ch1. split; [reflexivity |].
  exact (Collect_keeps_session adaFailsBobAnswers 1 (start authenticatedClient) [] heldCreds
           r s1 ch1 eq_refl E).
Defined.


Lemma mainClient_of_valid_config_example :
  exists cl,
    mainClient (scripted []) "ann@example.org" "secret" givenCredentials = Some cl
    /\ creds cl = Some (issued (scripted []) "u-1" "t-1" (time.Unix 1773417313 0)).
Proof.
  destruct (mainClient_of_valid_config (scripted []) (time.Unix 1757268063 0)
              "ann@example.org" "secret" givenCredentials "https://api.libreview.io"
              eq_refl eq_refl)
    as (cl & Hm & _ & _ & _ & _ & [(Hi & _) | (_ & _ & Hc)]).
  - discriminate Hi.
  - exists cl. split; [exact Hm | exact Hc].
Defined.


Lemma GetConnections_payload_example :
  exists s1, GetConnections answersNull 1 (start authenticatedClient) = Some (Ok [], s1).
Proof.
  destruct (doRequest answersNull 1 (start authenticatedClient) "GET" "llu/connections" None)
    as [[[resp | e | p] s1] |] eqn:E; try (vm_compute in E; discriminate E).
  exists s1.
  apply (proj1 (GetConnections_payload answersNull 1 (start authenticatedClient) resp s1 E)).
  vm_compute in E. injection E as <- _. reflexivity.
Defined.

Lemma Authenticate_accepts_empty_payload_example :
  exists s1,
    Authenticate answersNull 1 (start freshClient) = Some (Ok tt, s1)
    /\ IsAuthenticated (client s1) = true.
Proof.
  destruct (doRequest answersNull 1 (start freshClient) "POST" "llu/auth/login"
              (Some ("{" ++ quote ++ "email" ++ quote ++ ":" ++ quote ++ "ann@example.org"
                         ++ quote ++ "," ++ quote ++ "password" ++ quote ++ ":" ++ quote
                         ++ "secret" ++ quote ++ "}")))
    as [[[resp | e | p] s1] |] eqn:E; try (vm_compute in E; discriminate E).
  destruct (Authenticate_accepts_empty_payload answersNull 1 (start freshClient) _ resp s1
              eq_refl E) as (k & HA & _ & HI).
  - left. vm_compute in E. injection E as <- _. reflexivity.
  - eexists. split; [exact HA | exact HI].
Defined.


Lemma http_status_ends_scrape_example :
  exists s1,
    GetConnections unavailable 1 (start authenticatedClient)
    = Some (Err "unexpected status code: 503", s1)
    /\ Collect unavailable 1 (start authenticatedClient) [] = Some (Ok tt, s1, []).
Proof.
  eexists.
  refine (http_status_ends_scrape unavailable 0 (start authenticatedClient) [] heldCreds
            _ {| StatusCode := 503; RespBody := json.Invalid "invalid character" |}
            eq_refl eq_refl eq_refl _).
  discriminate.
Defined.


Lemma parseDate_next_day_example :
  exists t t',
    parseDate "12/31/2024 11:59:59 PM" = Ok t
    /\ parseDate "1/1/2025 11:59:59 PM" = Ok t'
    /\ time.unixSec t' = time.unixSec t + 86400.
Proof.
  destruct (parseDate_next_day 2024 12 31 11 59 59 true) as (_ & t & t' & H1 & H2 & H3 & _);
    try lia.
  - vm_compute. split; discriminate.
  - exists t, t'. auto.
Defined.
